(** * Autonoma: sandboxed execution and the test-repair loop

    A shallow embedding of
      - [autonoma/utils/code_executor.py]  (class [CodeExecutor]),
      - [autonoma/core/tester.py]          (class [Tester]),
      - [autonoma/core/coder.py]           (class [CoderAgent]),
      - [autonoma/core/agent.py]           ([AutonomaAgent.modify_code]),
    together with the properties the specification states about them.

    Python code that mutates objects and may raise is modelled in a
    state-and-exception monad over a [World]: the interpreter state the
    code touches ([sys.modules], the executor's [mocked_modules], the
    reflector's log), the file system, and the history of the processes
    and language-model requests issued so far.  Everything the host
    decides (what [ast.parse] accepts, whether a file can be written, what
    a child process prints, what the language model answers) is a field of
    a [Host] record; theorems quantify over every host. *)

From Stdlib Require Import ZArith Bool Ascii String.
From stdpp Require Import base option list strings pretty gmap fin_sets.

#[local] Set Warnings "-clear-no-such-hyp".

Local Open Scope string_scope.
Local Open Scope list_scope.
Local Open Scope nat_scope.

(** ** Strings as Python uses them *)

(** [s.startswith(p)]. *)
Fixpoint startswith (p s : string) : bool :=
  match p, s with
  | EmptyString, _ => true
  | String _ _, EmptyString => false
  | String a p', String b s' => if Ascii.eqb a b then startswith p' s' else false
  end.

(** [needle in hay] on two [str] values: substring test. *)
Fixpoint str_in (needle hay : string) : bool :=
  startswith needle hay
  || match hay with
     | EmptyString => false
     | String _ hay' => str_in needle hay'
     end.

(** [s.split(".")[0]]: the text before the first dot. *)
Fixpoint first_segment (s : string) : string :=
  match s with
  | EmptyString => EmptyString
  | String c s' => if Ascii.eqb c "."%char then EmptyString else String c (first_segment s')
  end.

(** [", ".join(l)]. *)
Definition join_comma (l : list string) : string := String.concat ", " l.

(** ** Exceptions and outcomes *)

Inductive exn_class :=
| SyntaxError
| OSError
| TimeoutExpired
| ValueError
| ValidationError
| TypeError
| UnboundLocalError
| RuntimeError.

#[export] Instance exn_class_eq_dec : EqDecision exn_class.
Proof. solve_decision. Defined.

(** An exception object: its class and [str(e)].  Every class above is a
    subclass of [Exception], so [except Exception] catches all of them. *)
Record exn := Exn { exn_cls : exn_class; exn_str : string }.

Inductive outcome (A : Type) :=
| Ret (a : A)
| Raise (e : exn).
Arguments Ret {A} a.
Arguments Raise {A} e.

(** ** Data model ([autonoma/models]) *)

Record CodeFile := { cf_path : string; cf_content : string }.

Record CodeChange := { cc_code : string; cc_path : string }.

Record GeneratedCode := { code_changes : list CodeChange }.

Record TestCode := {
  tc_test_code : string;
  tc_test_path : string;
  tc_original_code_path : string
}.

Record TestCodeResponse := { tests : list TestCode }.

Record TestResult := {
  tr_success : bool;
  tr_message : string;
  tr_test_code : string;
  tr_original_code_path : string
}.

Record ExecutionResult := {
  success : bool;
  output : string;
  mocked_modules_used : list string   (* field [mocked_modules] *)
}.

Record TaskResult := {
  task_id : string;
  task_success : bool;
  task_output : string;
  modified_files : gmap string string;
  new_files : gmap string string;
  test_results : option (list TestResult)
}.

Record Task := {
  t_id : string;
  t_description : string;
  t_file_paths : list string
}.

Record Agent := { a_name : string; a_role : string; a_goal : string }.

(** ** What the code sees of a parsed snippet

    [analyze_imports] iterates over [ast.walk(ast.parse(code))] and looks
    only at the class of each node, at [node.names] of an [ast.Import]
    and at [node.module] of an [ast.ImportFrom]. *)
Inductive ast_node :=
| Import (names : list string)
| ImportFrom (module : option string)
| OtherNode.

(** ** Module objects *)

(** A [MagicMock] built by [create_mock_module]; [mock_id] is the identity
    of the object, [mock_loader] and [mock_spec] the identities of the two
    further mocks stored in [__loader__] and [__spec__]. *)
Record MockModule := {
  mock_id : nat;
  mock_name : string;        (* __name__ *)
  mock_file : string;        (* __file__ *)
  mock_path : list string;   (* __path__ *)
  mock_loader : nat;         (* __loader__ *)
  mock_spec : nat            (* __spec__ *)
}.

(** An entry of [sys.modules]: a module the interpreter really loaded, or
    a stand-in. *)
Inductive PyModule :=
| RealModule (name : string)
| StandIn (m : MockModule).

(** [subprocess.CompletedProcess] with captured text streams. *)
Record CompletedProcess := {
  returncode : Z;
  stdout : string;
  stderr : string
}.

(** What the child process started by [subprocess.run] does when it is
    left alone: it cannot be run at all ([Popen] raises, or the captured
    output cannot be decoded), it ends after [elapsed] seconds (rounded
    up) with an exit status and its streams, or it never ends. *)
Inductive child_run :=
| Fails (e : exn)
| Exits (elapsed : nat) (cp : CompletedProcess)
| NeverExits.

(** What [Tester.generate_test_code] can make of a model response:
    [json.loads] raises [JSONDecodeError], or it succeeds and
    the [TestCodeResponse] constructor raises, or both succeed. *)
Inductive TestResponseParse :=
| NotJSON
| BadShape (e : exn)
| Parsed (r : TestCodeResponse).

(** ** The host *)

Record Host := {
  (** [m.name for m in pkgutil.iter_modules()] and
      [sys.builtin_module_names] when the executor was built. *)
  pkgutil_iter_modules : list string;
  sys_builtin_module_names : list string;
  (** [ast.walk(ast.parse(code))]: the nodes in the order [ast.walk]
      yields them, or the exception [ast.parse] raises. *)
  ast_parse_walk : string → exn + list ast_node;
  os_path_join : string → string → string;
  os_path_dirname : string → string;
  (** [path_inside d p]: [p] lies below directory [d]. *)
  path_inside : string → string → bool;
  (** [tempfile.TemporaryDirectory()] at a given tick: the fresh name, or
      the error raised. *)
  mkdtemp : nat → exn + string;
  (** Whether [os.makedirs] / [open(..., "w")] on a path fails at a tick. *)
  makedirs_error : nat → string → option exn;
  open_error : nat → string → option exn;
  (** The child process [[sys.executable, "-c", ...]] started at a tick
      in directory [cwd], given the files on disk. *)
  child_process : nat → string → gmap string string → child_run;
  (** [LLMInterface.generate(user_prompt, system_prompt)] at a tick. *)
  llm_generate : nat → string → string → exn + string;
  (** Prompt templates (f-strings over the arguments). *)
  test_prompt : GeneratedCode → string;
  generate_prompt : Task → Agent → string * string;
  modify_prompt : GeneratedCode → string → string → Task → string;
  (** [json.loads] followed by the [TestCodeResponse] constructor. *)
  parse_test_response : string → TestResponseParse;
  (** [GeneratedCode.parse_raw]. *)
  parse_raw : string → exn + GeneratedCode
}.

(** ** The world

    A [Tester] builds one [CodeExecutor] and uses it for every test, so
    the executor's cache is part of the world: calls that are threaded
    through the same world are calls on the same executor, and a new
    executor is a world whose [mocked_modules] is empty. *)

Record World := {
  clock : nat;                                  (* host interactions so far *)
  directories : gset string;
  files : gmap string string;
  sys_modules : gmap string PyModule;
  mocked_modules : list (string * MockModule);  (* [self.mocked_modules], in insertion order *)
  next_id : nat;                                (* next fresh object identity *)
  children : list (string * (exn + CompletedProcess)); (* child processes run: cwd and what came back *)
  llm_log : list (string * string);             (* requests sent: user and system prompt *)
  thought_process : list string                 (* [Reflector.thought_process] *)
}.

Definition set_clock (n : nat) (w : World) : World :=
  {| clock := n; directories := directories w; files := files w;
     sys_modules := sys_modules w; mocked_modules := mocked_modules w;
     next_id := next_id w; children := children w; llm_log := llm_log w;
     thought_process := thought_process w |}.

Definition set_directories (d : gset string) (w : World) : World :=
  {| clock := clock w; directories := d; files := files w;
     sys_modules := sys_modules w; mocked_modules := mocked_modules w;
     next_id := next_id w; children := children w; llm_log := llm_log w;
     thought_process := thought_process w |}.

Definition set_files (f : gmap string string) (w : World) : World :=
  {| clock := clock w; directories := directories w; files := f;
     sys_modules := sys_modules w; mocked_modules := mocked_modules w;
     next_id := next_id w; children := children w; llm_log := llm_log w;
     thought_process := thought_process w |}.

Definition set_sys_modules (m : gmap string PyModule) (w : World) : World :=
  {| clock := clock w; directories := directories w; files := files w;
     sys_modules := m; mocked_modules := mocked_modules w;
     next_id := next_id w; children := children w; llm_log := llm_log w;
     thought_process := thought_process w |}.

Definition set_mocked_modules (m : list (string * MockModule)) (w : World) : World :=
  {| clock := clock w; directories := directories w; files := files w;
     sys_modules := sys_modules w; mocked_modules := m;
     next_id := next_id w; children := children w; llm_log := llm_log w;
     thought_process := thought_process w |}.

Definition set_next_id (n : nat) (w : World) : World :=
  {| clock := clock w; directories := directories w; files := files w;
     sys_modules := sys_modules w; mocked_modules := mocked_modules w;
     next_id := n; children := children w; llm_log := llm_log w;
     thought_process := thought_process w |}.

Definition set_children (c : list (string * (exn + CompletedProcess))) (w : World) : World :=
  {| clock := clock w; directories := directories w; files := files w;
     sys_modules := sys_modules w; mocked_modules := mocked_modules w;
     next_id := next_id w; children := c; llm_log := llm_log w;
     thought_process := thought_process w |}.

Definition set_llm_log (l : list (string * string)) (w : World) : World :=
  {| clock := clock w; directories := directories w; files := files w;
     sys_modules := sys_modules w; mocked_modules := mocked_modules w;
     next_id := next_id w; children := children w; llm_log := l;
     thought_process := thought_process w |}.

Definition set_thought_process (t : list string) (w : World) : World :=
  {| clock := clock w; directories := directories w; files := files w;
     sys_modules := sys_modules w; mocked_modules := mocked_modules w;
     next_id := next_id w; children := children w; llm_log := llm_log w;
     thought_process := t |}.

Definition tick (w : World) : World := set_clock (S (clock w)) w.

(** ** The monad *)

Definition M (A : Type) : Type := World → outcome A * World.

Definition ret {A} (a : A) : M A := λ w, (Ret a, w).

Definition raise {A} (e : exn) : M A := λ w, (Raise e, w).

Definition bind {A B} (m : M A) (k : A → M B) : M B :=
  λ w, match m w with
       | (Ret a, w') => k a w'
       | (Raise e, w') => (Raise e, w')
       end.

Notation "'let*' x ':=' m 'in' k" := (bind m (λ x, k))
  (at level 10, x name, m at level 100, k at level 200, only parsing).
Notation "'let*' ' p ':=' m 'in' k" := (bind m (λ x, match x with p => k end))
  (at level 10, p pattern, m at level 100, k at level 200, only parsing).

Definition get_world : M World := λ w, (Ret w, w).

Definition modify_world (f : World → World) : M unit := λ w, (Ret tt, f w).

(** [of_sum]: lift the answer of a host call. *)
Definition of_sum {A} (r : exn + A) : M A :=
  match r with inl e => raise e | inr a => ret a end.

(** [for x in l: body x]. *)
Fixpoint for_each {A} (l : list A) (body : A → M unit) : M unit :=
  match l with
  | [] => ret tt
  | x :: l' => let* _ := body x in for_each l' body
  end.

(** A [for] loop that rebinds one local variable. *)
Fixpoint for_fold {A B} (l : list A) (acc : B) (body : B → A → M B) : M B :=
  match l with
  | [] => ret acc
  | x :: l' => let* acc' := body acc x in for_fold l' acc' body
  end.

(** [try: body  except cls: h1  except Exception as e: h2 e]. *)
Definition try_except {A} (body : M A) (handler : exn → M A) : M A :=
  λ w, match body w with
       | (Ret a, w') => (Ret a, w')
       | (Raise e, w') => handler e w'
       end.

(** [try: body  finally: fin].  The [finally] block runs on every exit;
    if it raises, its exception replaces the outcome of [body]. *)
Definition try_finally {A} (body : M A) (fin : M unit) : M A :=
  λ w, match body w with
       | (o, w') =>
           match fin w' with
           | (Ret _, w'') => (o, w'')
           | (Raise e, w'') => (Raise e, w'')
           end
       end.

(** ** Host calls *)

(** [tempfile.TemporaryDirectory().__enter__()]. *)
Definition TemporaryDirectory_enter (H : Host) : M string :=
  λ w, match mkdtemp H (clock w) with
       | inl e => (Raise e, tick w)
       | inr d => (Ret d, set_directories ({[d]} ∪ directories w) (tick w))
       end.

(** [TemporaryDirectory.__exit__]: the directory and all below it go. *)
Definition remove_tree (H : Host) (d : string) (w : World) : World :=
  set_files (filter (λ kv, path_inside H d kv.1 = false) (files w))
    (set_directories
       (filter (λ p, path_inside H d p = false) (directories w ∖ {[d]})) w).

Definition rmtree (H : Host) (d : string) : M unit :=
  modify_world (remove_tree H d).

(** [with tempfile.TemporaryDirectory() as temp_dir: body]. *)
Definition with_TemporaryDirectory {A} (H : Host) (body : string → M A) : M A :=
  let* temp_dir := TemporaryDirectory_enter H in
  try_finally (body temp_dir) (rmtree H temp_dir).

(** [os.makedirs(d, exist_ok=True)]. *)
Definition os_makedirs (H : Host) (d : string) : M unit :=
  λ w, match makedirs_error H (clock w) d with
       | Some e => (Raise e, tick w)
       | None => (Ret tt, set_directories ({[d]} ∪ directories w) (tick w))
       end.

(** [with open(p, "w") as f: f.write(content)]. *)
Definition write_file (H : Host) (p content : string) : M unit :=
  λ w, match open_error H (clock w) p with
       | Some e => (Raise e, tick w)
       | None => (Ret tt, set_files (<[p := content]> (files w)) (tick w))
       end.

(** [subprocess.run(python_command, capture_output=True, text=True,
    timeout=timeout, cwd=cwd)] as the library has it: the exit status and
    the streams of a child that has ended when [timeout] seconds have
    passed; otherwise the child is killed and [TimeoutExpired] is raised.
    The text of that exception names the command; the executor never
    reads it. *)
Definition subprocess_run (H : Host) (timeout clock : nat) (cwd : string)
    (files : gmap string string) : exn + CompletedProcess :=
  let timeout_expired :=
    Exn TimeoutExpired ("Command timed out after " +:+ pretty timeout +:+ " seconds") in
  match child_process H clock cwd files with
  | Fails e => inl e
  | Exits elapsed cp => if (timeout <? elapsed)%nat then inl timeout_expired else inr cp
  | NeverExits => inl timeout_expired
  end.

(** [subprocess.run(python_command, capture_output=True, text=True,
    timeout=10, cwd=temp_dir)]; the call is recorded in [children]. *)
Definition run_subprocess (H : Host) (temp_dir : string) : M CompletedProcess :=
  λ w, let r := subprocess_run H 10 (clock w) temp_dir (files w) in
       let w' := set_children (children w ++ [(temp_dir, r)]) (tick w) in
       match r with
       | inl e => (Raise e, w')
       | inr p => (Ret p, w')
       end.

(** [self.llm_interface.generate(user_prompt, system_prompt)]; the
    request is recorded in [llm_log]. *)
Definition llm_call (H : Host) (user_prompt system_prompt : string) : M string :=
  λ w, let w' := set_llm_log (llm_log w ++ [(user_prompt, system_prompt)]) (tick w) in
       match llm_generate H (clock w) user_prompt system_prompt with
       | inl e => (Raise e, w')
       | inr s => (Ret s, w')
       end.

(** [Reflector.reflect]. *)
Definition reflect (thought : string) : M unit :=
  modify_world (λ w, set_thought_process (thought_process w ++ [thought]) w).

(** ** [CodeExecutor] *)

(** [self.stdlib_modules] as [__init__] builds it. *)
Definition stdlib_modules (H : Host) : gset string :=
  list_to_set (pkgutil_iter_modules H) ∪ list_to_set (sys_builtin_module_names H).

(** What one node of the walk adds to [imports]. *)
Definition imports_of_node (node : ast_node) : list string :=
  match node with
  | Import names => map first_segment names
  | ImportFrom (Some module) =>
      if String.eqb module "" then [] else [first_segment module]
  | ImportFrom None => []
  | OtherNode => []
  end.

Definition analyze_imports (H : Host) (code : string) : M (list string) :=
  let* nodes := of_sum (ast_parse_walk H code) in
  ret (flat_map imports_of_node nodes).

Definition is_external_module (H : Host) (module_name : string)
    (codebase : gmap string string) : bool :=
  if bool_decide (module_name ∈ stdlib_modules H) then false
  else if existsb (λ file_path, str_in module_name file_path) (map_to_list codebase).*1
       then false
       else true.

(** The mock [create_mock_module] sets up, given the identity [i] of the
    first of the three [MagicMock] objects it allocates. *)
Definition mock_of (module_name : string) (i : nat) : MockModule :=
  {| mock_id := i;
     mock_name := module_name;
     mock_file := "/mock/" +:+ module_name +:+ ".py";
     mock_path := ["/mock/" +:+ module_name];
     mock_loader := i + 1;
     mock_spec := i + 2 |}.

Definition create_mock_module (module_name : string) : M MockModule :=
  λ w, (Ret (mock_of module_name (next_id w)), set_next_id (next_id w + 3) w).

(** [module_name in self.mocked_modules]. *)
Definition is_mocked (module_name : string) (w : World) : bool :=
  bool_decide (module_name ∈ (mocked_modules w).*1).

(** The body of the loop of [mock_external_modules]. *)
Definition mock_one (H : Host) (codebase : gmap string string)
    (module_name : string) : M unit :=
  if is_external_module H module_name codebase then
    let* w := get_world in
    if negb (is_mocked module_name w) then
      let* mock_module := create_mock_module module_name in
      modify_world (λ w,
        set_mocked_modules (mocked_modules w ++ [(module_name, mock_module)]) w)
    else ret tt
  else ret tt.

Definition mock_external_modules (H : Host) (code : string)
    (codebase : gmap string string) : M unit :=
  let* imports := analyze_imports H code in
  for_each imports (mock_one H codebase).

(** [sys.modules] after [patch_modules]: every cached stand-in is
    stored under its name. *)
Definition patched (w : World) : World :=
  set_sys_modules
    (foldl (λ sm kv, <[kv.1 := StandIn kv.2]> sm) (sys_modules w) (mocked_modules w))
    w.

Definition patch_modules : M unit := modify_world patched.

(** [sys.modules] after [unpatch_modules]: every cached name is deleted. *)
Definition unpatched (w : World) : World :=
  set_sys_modules
    (foldl (λ sm module_name, delete module_name sm) (sys_modules w)
       (mocked_modules w).*1)
    w.

Definition unpatch_modules : M unit := modify_world unpatched.

(** [list(self.mocked_modules.keys())]. *)
Definition mocked_keys : M (list string) :=
  λ w, (Ret (mocked_modules w).*1, w).

(** The first loop of [run]: the code base is written below [temp_dir].
    The code visits [codebase.items()] in insertion order, the embedding
    visits the same entries in the order of [map_to_list]; when several
    writes would fail, the two may meet different ones first. *)
Definition write_project (H : Host) (temp_dir : string)
    (codebase : gmap string string) : M unit :=
  for_each (map_to_list codebase) (λ item,
    let full_path := os_path_join H temp_dir item.1 in
    let* _ := os_makedirs H (os_path_dirname H full_path) in
    write_file H full_path item.2).

(** The [try] block of [run] with its two [except] clauses. *)
Definition run_and_report (H : Host) (temp_dir : string) : M ExecutionResult :=
  try_except
    (let* result := run_subprocess H temp_dir in
     let* keys := mocked_keys in
     ret {| success := (returncode result =? 0)%Z;
            output := if (returncode result =? 0)%Z
                      then stdout result else stderr result;
            mocked_modules_used := keys |})
    (λ e,
       let* keys := mocked_keys in
       if decide (exn_cls e = TimeoutExpired) then
         ret {| success := false;
                output := "Execution timed out";
                mocked_modules_used := keys |}
       else
         ret {| success := false;
                output := exn_str e;
                mocked_modules_used := keys |}).

(** What [run] does inside the [with] block. *)
Definition run_in (H : Host) (code : string) (codebase : gmap string string)
    (temp_dir : string) : M ExecutionResult :=
  let* _ := write_project H temp_dir codebase in
  let main_file := os_path_join H temp_dir "__main__.py" in
  let* _ := write_file H main_file code in
  let* _ := mock_external_modules H code codebase in
  let* _ := patch_modules in
  try_finally (run_and_report H temp_dir) unpatch_modules.

Definition run (H : Host) (code : string) (codebase : gmap string string)
    : M ExecutionResult :=
  with_TemporaryDirectory H (run_in H code codebase).

(** ** [Tester] *)

Definition generate_test_code (H : Host) (code : GeneratedCode) : M TestCodeResponse :=
  let* response := llm_call H (test_prompt H code) "" in
  match parse_test_response H response with
  | Parsed r => ret r
  | BadShape e => raise e
  | NotJSON =>
      raise (Exn ValueError
               ("Failed to parse LLM response as JSON. Raw response: " +:+ response))
  end.

(** [updated_codebase] of [run_tests]: the code base as a dict, with the
    changed files written over it. *)
Definition updated_codebase (modified_code : GeneratedCode)
    (codebase : list CodeFile) : gmap string string :=
  foldl (λ cb file_change, <[cc_path file_change := cc_code file_change]> cb)
    (foldl (λ cb file, <[cf_path file := cf_content file]> cb) ∅ codebase)
    (code_changes modified_code).

Definition make_test_result (test_code : TestCode) (result : ExecutionResult)
    : TestResult :=
  {| tr_success := success result;
     tr_message := output result;
     tr_test_code := tc_test_code test_code;
     tr_original_code_path := tc_original_code_path test_code |}.

(** The body of the loop of [run_tests]; [acc] holds
    [(unsuccessful_tests, successful_tests)]. *)
Definition run_one_test (H : Host) (modified_code : GeneratedCode)
    (codebase : list CodeFile) (acc : list TestResult * list TestResult)
    (test_code : TestCode) : M (list TestResult * list TestResult) :=
  let full_code := tc_test_code test_code in
  let* result := run H full_code (updated_codebase modified_code codebase) in
  let test_result := make_test_result test_code result in
  if negb (success result)
  then ret (acc.1 ++ [test_result], acc.2)
  else ret (acc.1, acc.2 ++ [test_result]).

Definition run_tests (H : Host) (modified_code : GeneratedCode)
    (codebase : list CodeFile) : M (list TestResult * list TestResult) :=
  let* test_code_response := generate_test_code H modified_code in
  for_fold (tests test_code_response) ([], []) (run_one_test H modified_code codebase).

(** ** [CoderAgent] *)

Definition generate_code (H : Host) (task : Task) (agent : Agent) : M GeneratedCode :=
  let* response :=
    llm_call H (generate_prompt H task agent).1 (generate_prompt H task agent).2 in
  of_sum (parse_raw H response).

Definition modify_system_prompt : string :=
  "
        You are an expert Python developer tasked with modifying code to pass tests.
        Focus on making minimal necessary changes to fix the failing tests.
        Ensure your modifications maintain the overall structure and intent of the original code.
        If the test is already passing, return the original code unchanged.
        Ensure you mock all the imports.
        ".

Definition modify_code_based_on_test (H : Host) (code : GeneratedCode)
    (test test_result : string) (task : Task) : M GeneratedCode :=
  let* response :=
    llm_call H (modify_prompt H code test test_result task) modify_system_prompt in
  of_sum (parse_raw H response).

(** ** [AutonomaAgent.modify_code] *)

(** The local variables of [modify_code] that the loop reads and writes.
    [unsuccessful_tests] and [successful_tests] are unbound until the loop
    body has run once. *)
Record Locals := {
  modified_code : GeneratedCode;
  iteration_count : nat;
  unsuccessful_tests : option (list TestResult);
  successful_tests : option (list TestResult)
}.

Inductive control := Continue | Break.

(** [for test in unsuccessful_tests: modified_code = modify_code_based_on_test(...)]. *)
Definition repair_all (H : Host) (task : Task) (current : GeneratedCode)
    (failing : list TestResult) : M GeneratedCode :=
  for_fold failing current (λ code test,
    modify_code_based_on_test H code (tr_test_code test) (tr_message test) task).

(** One pass through the body of the [while] loop. *)
Definition loop_body (H : Host) (task : Task) (codebase : list CodeFile)
    (l : Locals) : M (control * Locals) :=
  let* '(unsuccessful, successful) := run_tests H (modified_code l) codebase in
  match unsuccessful with
  | [] =>
      let* _ := reflect "All tests passed successfully." in
      ret (Break,
           {| modified_code := modified_code l;
              iteration_count := iteration_count l;
              unsuccessful_tests := Some unsuccessful;
              successful_tests := Some successful |})
  | _ :: _ =>
      let* _ :=
        reflect ("Iteration " +:+ pretty (iteration_count l + 1) +:+ ": "
                 +:+ pretty (length unsuccessful)
                 +:+ " tests failed. Attempting to fix...") in
      let* revised := repair_all H task (modified_code l) unsuccessful in
      ret (Continue,
           {| modified_code := revised;
              iteration_count := iteration_count l + 1;
              unsuccessful_tests := Some unsuccessful;
              successful_tests := Some successful |})
  end.

(** [while iteration_count < max_iterations: ...].  [None] is returned
    only when [fuel] runs out before the loop has ended. *)
Fixpoint while_loop (H : Host) (fuel max_iterations : nat) (task : Task)
    (codebase : list CodeFile) (l : Locals) : M (option Locals) :=
  if (iteration_count l <? max_iterations)%nat then
    match fuel with
    | 0 => ret None
    | S fuel' =>
        let* '(c, l') := loop_body H task codebase l in
        match c with
        | Break => ret (Some l')
        | Continue => while_loop H fuel' max_iterations task codebase l'
        end
    end
  else ret (Some l).

(** The dict comprehension over [modified_code.code_changes]. *)
Definition files_of_changes (code : GeneratedCode) : gmap string string :=
  foldl (λ d file_change, <[cc_path file_change := cc_code file_change]> d) ∅
    (code_changes code).

(** What follows the loop. *)
Definition finish (max_iterations : nat) (task : Task) (l : Locals) : M TaskResult :=
  let* _ :=
    if (iteration_count l =? max_iterations)%nat
    then reflect "Maximum iterations reached. Some tests are still failing."
    else ret tt in
  match unsuccessful_tests l, successful_tests l with
  | Some unsuccessful, Some successful =>
      ret {| task_id := t_id task;
             task_success := (length unsuccessful =? 0)%nat;
             task_output := match unsuccessful with
                            | [] => "Code modification complete"
                            | _ :: _ => "Some tests are still failing"
                            end;
             modified_files := files_of_changes (modified_code l);
             new_files := ∅;
             test_results := Some (successful ++ unsuccessful) |}
  | _, _ =>
      raise (Exn UnboundLocalError
               "cannot access local variable 'unsuccessful_tests' where it is not associated with a value")
  end.

(** [modify_code] with the constant bound to [max_iterations] as a
    parameter; the result is [None] only if the loop ran out of fuel. *)
Definition modify_code_with (H : Host) (max_iterations : nat) (task : Task)
    (agent : Agent) (codebase : list CodeFile) : M (option TaskResult) :=
  let* _ := reflect ("Modifying code in files: " +:+ join_comma (t_file_paths task)) in
  let* generated := generate_code H task agent in
  let iteration_count := 0 in
  let* after :=
    while_loop H max_iterations max_iterations task codebase
      {| modified_code := generated;
         iteration_count := iteration_count;
         unsuccessful_tests := None;
         successful_tests := None |} in
  match after with
  | None => ret None
  | Some l => let* r := finish max_iterations task l in ret (Some r)
  end.

Definition modify_code (H : Host) : Task → Agent → list CodeFile → M (option TaskResult) :=
  let max_iterations := 3 in
  modify_code_with H max_iterations.

(** ** Vocabulary of the statements *)

(** The names the executor has a stand-in for. *)
Definition mocked_names (w : World) : list string := (mocked_modules w).*1.

(** [self.mocked_modules.get(module_name)]. *)
Definition mocked_get (module_name : string) (w : World) : option MockModule :=
  (λ r, r.2.2) <$> list_find (λ kv, kv.1 = module_name) (mocked_modules w).

(** The names registered between world [w] and the later world [w']. *)
Definition registered_during (w w' : World) : list string :=
  filter (λ name, name ∉ mocked_names w) (mocked_names w').

(** [w'] differs from [w] at most in the clock and the file system. *)
Definition fs_only (w w' : World) : Prop :=
  sys_modules w' = sys_modules w ∧ mocked_modules w' = mocked_modules w ∧
  next_id w' = next_id w ∧ children w' = children w ∧ llm_log w' = llm_log w ∧
  thought_process w' = thought_process w.

(** Result [r] reports what came back from a child: the exit status and
    the streams of a completed process, or the exception [subprocess.run]
    raised. *)
Definition reports (r : ExecutionResult) (p : exn + CompletedProcess) : Prop :=
  match p with
  | inr cp =>
      (success r = true ↔ returncode cp = 0%Z) ∧
      output r = (if success r then stdout cp else stderr cp)
  | inl e =>
      success r = false ∧
      output r = (if decide (exn_cls e = TimeoutExpired)
                  then "Execution timed out" else exn_str e)
  end.

(** The file-writing steps at the head of the [with] block of [run]. *)
Definition prepare (H : Host) (code : string) (codebase : gmap string string)
    (temp_dir : string) : M unit :=
  let* _ := write_project H temp_dir codebase in
  write_file H (os_path_join H temp_dir "__main__.py") code.

(** The world in which [run] leaves the [try] block, given the world [w1]
    after the files were written, the stand-ins [added] to the cache and
    what came back from the child. *)
Definition after_child (d : string) (added : list (string * MockModule))
    (p : exn + CompletedProcess) (w1 : World) : World :=
  unpatched
    (set_children (children w1 ++ [(d, p)])
       (tick
          (patched
             (set_mocked_modules (mocked_modules w1 ++ added)
                (set_next_id (next_id w1 + 3 * length added) w1))))).

(** The world on entry to the [with] block, once the temporary directory
    [d] has been made. *)
Definition entered (d : string) (w : World) : World :=
  set_directories ({[d]} ∪ directories w) (tick w).

(** [sandbox_runs H cb w ts rs w']: run one after the other from world
    [w], the sandbox returns the results [rs] for the tests [ts] and leaves
    the world [w']. *)
Inductive sandbox_runs (H : Host) (cb : gmap string string)
    : World → list TestCode → list ExecutionResult → World → Prop :=
| sandbox_runs_nil w : sandbox_runs H cb w [] [] w
| sandbox_runs_cons w t ts r rs w1 w2 :
    run H (tc_test_code t) cb w = (Ret r, w1) →
    sandbox_runs H cb w1 ts rs w2 →
    sandbox_runs H cb w (t :: ts) (r :: rs) w2.

(** The outcomes of the tests [ts], given the sandbox results [rs]. *)
Definition outcomes (ts : list TestCode) (rs : list ExecutionResult) : list TestResult :=
  zip_with make_test_result ts rs.

Definition failing (os : list TestResult) : list TestResult :=
  filter (λ o, tr_success o = false) os.

Definition passing (os : list TestResult) : list TestResult :=
  filter (λ o, tr_success o = true) os.

(** The exception [generate_test_code] raises for a response, if any. *)
Definition structured_output_error (H : Host) (response : string) : option exn :=
  match parse_test_response H response with
  | NotJSON =>
      Some (Exn ValueError
              ("Failed to parse LLM response as JSON. Raw response: " +:+ response))
  | BadShape e => Some e
  | Parsed _ => None
  end.

(** The request [modify_code_based_on_test] sends for the failing test
    [t] when the current code is [current]. *)
Definition repair_request (H : Host) (task : Task) (current : GeneratedCode)
    (t : TestResult) : string * string :=
  (modify_prompt H current (tr_test_code t) (tr_message t) task, modify_system_prompt).

(** [rounds H task codebase max n l w l' w']: from the loop state [l] in
    world [w], [n] passes through the loop body, each entered with the
    guard true and each ending in a repair round, lead to [l'] and [w']. *)
Inductive rounds (H : Host) (task : Task) (codebase : list CodeFile) (max : nat)
    : nat → Locals → World → Locals → World → Prop :=
| rounds_O l w : rounds H task codebase max 0 l w l w
| rounds_S n l w l1 w1 l2 w2 :
    (iteration_count l < max)%nat →
    loop_body H task codebase l w = (Ret (Continue, l1), w1) →
    rounds H task codebase max n l1 w1 l2 w2 →
    rounds H task codebase max (S n) l w l2 w2.

(** How the loop ends from the state [l1], [w1] it has reached: the guard
    is false, or the body breaks because no test failed, or the body
    raises. *)
Inductive loop_end (H : Host) (task : Task) (codebase : list CodeFile) (max : nat)
    (l1 : Locals) (w1 : World) : outcome (option Locals) → World → Prop :=
| end_guard :
    (max ≤ iteration_count l1)%nat →
    loop_end H task codebase max l1 w1 (Ret (Some l1)) w1
| end_break l2 w2 :
    (iteration_count l1 < max)%nat →
    loop_body H task codebase l1 w1 = (Ret (Break, l2), w2) →
    loop_end H task codebase max l1 w1 (Ret (Some l2)) w2
| end_raise e w2 :
    (iteration_count l1 < max)%nat →
    loop_body H task codebase l1 w1 = (Raise e, w2) →
    loop_end H task codebase max l1 w1 (Raise e) w2.

(** ** A concrete host, for examples

    A small host on which the definitions above can be run: a handful of
    snippets with their import nodes, a file system that never fails, a
    child process whose exit status depends on the files on disk, and a
    language model that answers from a table. *)
Module Demo.

Definition snippet_bad : string := "def (".
Definition snippet_fake : string := "import numpy_like_fake_pkg".
Definition snippet_twice : string := "import fake_a, fake_a.sub; from fake_a import x; import os".
Definition snippet_print : string := "print(2 + 2)".
Definition snippet_loop : string := "while True: pass".
Definition snippet_eq : string := "assert f() == 4".
Definition snippet_gt : string := "assert f() > 3".

Definition syntax_error : exn := Exn SyntaxError "invalid syntax (<unknown>, line 1)".

Definition parse (code : string) : exn + list ast_node :=
  if String.eqb code snippet_bad then inl syntax_error
  else if String.eqb code snippet_fake then
    inr [OtherNode; Import ["numpy_like_fake_pkg"]; OtherNode]
  else if String.eqb code snippet_twice then
    inr [OtherNode; Import ["fake_a"; "fake_a.sub"]; ImportFrom (Some "fake_a");
         Import ["os"]; OtherNode; OtherNode; OtherNode; OtherNode]
  else inr [OtherNode; OtherNode].

(** The text before the last slash. *)
Fixpoint dirname_from (seen best s : string) : string :=
  match s with
  | EmptyString => best
  | String c s' =>
      if Ascii.eqb c "/"%char
      then dirname_from (seen +:+ "/") seen s'
      else dirname_from (seen +:+ String c EmptyString) best s'
  end.

Definition code_v0 : GeneratedCode :=
  {| code_changes := [{| cc_code := "pass"; cc_path := "f.py" |}] |}.
Definition code_v1 : GeneratedCode :=
  {| code_changes := [{| cc_code := "def f(): return 3"; cc_path := "f.py" |}] |}.
Definition code_v2 : GeneratedCode :=
  {| code_changes := [{| cc_code := "def f(): return 4"; cc_path := "f.py" |}] |}.
Definition code_v3 : GeneratedCode :=
  {| code_changes := [{| cc_code := "def f(): return 5"; cc_path := "f.py" |}] |}.

Definition test_eq : TestCode :=
  {| tc_test_code := snippet_eq; tc_test_path := "test_eq.py";
     tc_original_code_path := "f.py" |}.
Definition test_print : TestCode :=
  {| tc_test_code := snippet_print; tc_test_path := "test_print.py";
     tc_original_code_path := "f.py" |}.
Definition test_gt : TestCode :=
  {| tc_test_code := snippet_gt; tc_test_path := "test_gt.py";
     tc_original_code_path := "f.py" |}.

(** The child of this host executes the entry-point file it finds in
    its working directory. *)
Definition child (cwd : string) (disk : gmap string string) : child_run :=
  match disk !! (cwd +:+ "/__main__.py") with
  | None => Fails (Exn OSError "can't find '__main__' module")
  | Some main =>
      if String.eqb main snippet_loop then NeverExits
      else if String.eqb main snippet_eq || String.eqb main snippet_gt then
        match disk !! (cwd +:+ "/f.py") with
        | Some body =>
            if String.eqb body "def f(): return 4"
            then Exits 1 {| returncode := 0; stdout := ""; stderr := "" |}
            else Exits 1 {| returncode := 1; stdout := ""; stderr := "AssertionError" |}
        | None => Exits 1 {| returncode := 1; stdout := ""; stderr := "NameError" |}
        end
      else Exits 1 {| returncode := 0; stdout := "4"; stderr := "" |}
  end.

Definition render (code : GeneratedCode) : string :=
  String.concat ";" (map cc_code (code_changes code)).

Definition model (user_prompt : string) : exn + string :=
  if startswith "GENERATE " user_prompt then
    if str_in "nothing" user_prompt then inr "v0"
    else if str_in "stubborn" user_prompt then inr "v3"
    else inr "v1"
  else if startswith "TESTS " user_prompt then
    if str_in "pass" user_prompt then inr "I cannot help with that."
    else inr "three tests"
  else if str_in "return 5" user_prompt then inr "v3"
  else inr "v2".

Definition parse_code (response : string) : exn + GeneratedCode :=
  if String.eqb response "v0" then inr code_v0
  else if String.eqb response "v1" then inr code_v1
  else if String.eqb response "v2" then inr code_v2
  else if String.eqb response "v3" then inr code_v3
  else inl (Exn ValidationError "1 validation error for GeneratedCode").

Definition parse_tests (response : string) : TestResponseParse :=
  if String.eqb response "three tests" then
    Parsed {| tests := [test_eq; test_print; test_gt] |}
  else if String.eqb response "{}" then
    BadShape (Exn ValidationError "1 validation error for TestCodeResponse")
  else NotJSON.

Definition host : Host :=
  {| pkgutil_iter_modules := ["os"; "json"; "unittest"];
     sys_builtin_module_names := ["sys"; "math"];
     ast_parse_walk := parse;
     os_path_join := λ a b, a +:+ "/" +:+ b;
     os_path_dirname := dirname_from "" "";
     path_inside := λ d p, startswith (d +:+ "/") p;
     mkdtemp := λ n, inr ("/tmp/tmp" +:+ pretty n);
     makedirs_error := λ _ _, None;
     open_error := λ _ _, None;
     child_process := λ _ cwd disk, child cwd disk;
     llm_generate := λ _ user_prompt _, model user_prompt;
     test_prompt := λ code, "TESTS " +:+ render code;
     generate_prompt := λ task agent,
       ("GENERATE " +:+ t_description task, "Act as " +:+ a_name agent);
     modify_prompt := λ code test test_result task,
       "REPAIR " +:+ render code +:+ " | " +:+ test +:+ " | " +:+ test_result;
     parse_test_response := parse_tests;
     parse_raw := parse_code |}.

(** A world in which nothing has happened yet: a new executor, a new
    reflector, an interpreter that has loaded [sys]. *)
Definition start : World :=
  {| clock := 0;
     directories := ∅;
     files := ∅;
     sys_modules := {[ "sys" := RealModule "sys" ]};
     mocked_modules := [];
     next_id := 0;
     children := [];
     llm_log := [];
     thought_process := [] |}.

Definition task_for (description : string) : Task :=
  {| t_id := "task-1"; t_description := description; t_file_paths := ["f.py"] |}.

Definition agent_dev : Agent :=
  {| a_name := "dev"; a_role := "developer"; a_goal := "working code" |}.

Definition base : list CodeFile :=
  [{| cf_path := "f.py"; cf_content := "def f(): return 0" |};
   {| cf_path := "README.md"; cf_content := "demo" |}].

End Demo.

(** * The rest of the code *)

(** ** [autonoma/utils/file_operations.py] *)

Record AgentResult := { agent_name : string; task_results : list TaskResult }.

(** [dict.update] writes the entries of the second dict over the first:
    [modified_files.update(task_result.modified_files)]. *)
Definition get_modified_files (agent_results : list AgentResult) : gmap string string :=
  foldl (λ modified agent_result,
           foldl (λ modified task_result, modified_files task_result ∪ modified)
             modified (task_results agent_result))
    ∅ agent_results.

Definition get_new_files (agent_results : list AgentResult) : gmap string string :=
  foldl (λ new agent_result,
           foldl (λ new task_result, new_files task_result ∪ new)
             new (task_results agent_result))
    ∅ agent_results.

(** ** [AutonomaAgent.execute_project]: the [unchanged_files] argument of
    the [ProjectResult] it builds, a dict comprehension over the code
    base that skips the paths of [modified_files]. *)
Definition unchanged_files (code_base : list CodeFile) (modified : gmap string string)
    : gmap string string :=
  foldl (λ d file, <[cf_path file := cf_content file]> d) ∅
    (filter (λ file, cf_path file ∉ dom modified) code_base).

(** ** [autonoma/core/planner.py] *)

(** [PlannerAgent._extract_code]: the content of the first file with the
    given path, [None] when there is none. *)
Fixpoint extract_code (codebase : list CodeFile) (path : string) : option string :=
  match codebase with
  | [] => None
  | file :: rest =>
      if String.eqb (cf_path file) path then Some (cf_content file)
      else extract_code rest path
  end.

(** The dict [_validate_and_extract_code] stores in [task.relevant_code]
    for a task that lists file paths. *)
Definition relevant_code_of (codebase : list CodeFile) (file_paths : list string)
    : gmap string (option string) :=
  foldl (λ d path, <[path := extract_code codebase path]> d) ∅ file_paths.

(** ** More vocabulary *)

(** The string holds a dot. *)
Fixpoint has_dot (s : string) : bool :=
  match s with
  | EmptyString => false
  | String c s' => Ascii.eqb c "."%char || has_dot s'
  end.

(** The identities of the objects the cache holds: each stand-in, its
    loader and its spec. *)
Definition cache_ids (cache : list (string * MockModule)) : list nat :=
  flat_map (λ kv, [mock_id kv.2; mock_loader kv.2; mock_spec kv.2]) cache.

(** A cache as the executor builds it: no name twice, each stand-in named
    after its key, and the objects distinct from one another and older
    than the next object to be made. *)
Definition cache_wf (w : World) : Prop :=
  NoDup (mocked_names w) ∧
  Forall (λ kv, mock_name kv.2 = kv.1) (mocked_modules w) ∧
  NoDup (cache_ids (mocked_modules w)) ∧
  Forall (λ i, i < next_id w) (cache_ids (mocked_modules w)).

(** The code base as the dict [run_tests] starts from. *)
Definition base_dict (codebase : list CodeFile) : gmap string string :=
  foldl (λ cb file, <[cf_path file := cf_content file]> cb) ∅ codebase.

(** A host like the example host, with another model and another reading
    of the answers. *)
Definition demo_host_with (model : string → exn + string)
    (parse_tests : string → TestResponseParse) : Host :=
  {| pkgutil_iter_modules := pkgutil_iter_modules Demo.host;
     sys_builtin_module_names := sys_builtin_module_names Demo.host;
     ast_parse_walk := ast_parse_walk Demo.host;
     os_path_join := os_path_join Demo.host;
     os_path_dirname := os_path_dirname Demo.host;
     path_inside := path_inside Demo.host;
     mkdtemp := mkdtemp Demo.host;
     makedirs_error := makedirs_error Demo.host;
     open_error := open_error Demo.host;
     child_process := child_process Demo.host;
     llm_generate := λ _ user_prompt _, model user_prompt;
     test_prompt := test_prompt Demo.host;
     generate_prompt := generate_prompt Demo.host;
     modify_prompt := modify_prompt Demo.host;
     parse_test_response := parse_tests;
     parse_raw := parse_raw Demo.host |}.

(** [full] is a dotted name the walk shows as imported: an alias of an
    [import] statement, or the non-empty module of a [from] import. *)
Definition imported (full : string) (nodes : list ast_node) : Prop :=
  (∃ names, Import names ∈ nodes ∧ full ∈ names) ∨
  (ImportFrom (Some full) ∈ nodes ∧ full ≠ "").

(** A model that answers a request for tests with no test at all. *)
Definition no_tests (response : string) : TestResponseParse :=
  Parsed {| tests := [] |}.

(** A model whose answers are never what was asked for. *)
Definition garbled (user_prompt : string) : exn + string := inr "???".

(** The example model, except that it garbles the repair of one test. *)
Definition garbled_repair (user_prompt : string) : exn + string :=
  if startswith "REPAIR " user_prompt && str_in Demo.snippet_gt user_prompt
  then inr "???"
  else Demo.model user_prompt.

(** The thought [modify_code] logs before it asks for repairs. *)
Definition iteration_thought (l : Locals) (unsuccessful : list TestResult) : string :=
  "Iteration " +:+ pretty (iteration_count l + 1) +:+ ": "
  +:+ pretty (length unsuccessful) +:+ " tests failed. Attempting to fix...".

(** The thought [modify_code] logs first. *)
Definition opening_thought (task : Task) : string :=
  "Modifying code in files: " +:+ join_comma (t_file_paths task).

(** No name the executor has a stand-in for is installed in
    [sys.modules]. *)
Definition no_stand_in_installed (w : World) : Prop :=
  ∀ name, name ∈ mocked_names w → sys_modules w !! name = None.





(** [posixpath.join] of two components: an absolute second component
    replaces the first. *)
Fixpoint ends_with_slash (s : string) : bool :=
  match s with
  | EmptyString => false
  | String c EmptyString => Ascii.eqb c "/"%char
  | String _ s' => ends_with_slash s'
  end.

Definition posix_join (a b : string) : string :=
  if startswith "/" b then b
  else if String.eqb a "" || ends_with_slash a then a +:+ b
  else a +:+ "/" +:+ b.

(** The example host with [posixpath.join] for [os.path.join]. *)
Definition posix_host : Host :=
  {| pkgutil_iter_modules := pkgutil_iter_modules Demo.host;
     sys_builtin_module_names := sys_builtin_module_names Demo.host;
     ast_parse_walk := ast_parse_walk Demo.host;
     os_path_join := posix_join;
     os_path_dirname := os_path_dirname Demo.host;
     path_inside := path_inside Demo.host;
     mkdtemp := mkdtemp Demo.host;
     makedirs_error := makedirs_error Demo.host;
     open_error := open_error Demo.host;
     child_process := child_process Demo.host;
     llm_generate := llm_generate Demo.host;
     test_prompt := test_prompt Demo.host;
     generate_prompt := generate_prompt Demo.host;
     modify_prompt := modify_prompt Demo.host;
     parse_test_response := parse_test_response Demo.host;
     parse_raw := parse_raw Demo.host |}.

(** A reading of the model's answers that always gives a test with
    imports, followed by a test of [f]. *)
Definition importing_test : TestCode :=
  {| tc_test_code := Demo.snippet_twice; tc_test_path := "test_imports.py";
     tc_original_code_path := "f.py" |}.

Definition importing_tests (response : string) : TestResponseParse :=
  Parsed {| tests := [importing_test; Demo.test_eq] |}.

(** * Properties *)

(** ** Strings *)

Lemma startswith_spec (p s : string) :
  startswith p s = true ↔ ∃ post, s = p +:+ post.
Proof.
  revert s. induction p as [|a p IH]; intros s; simpl.
  - split; [intros _; by exists s | done].
  - destruct s as [|b s].
    + split; [done | intros [post Hp]; discriminate].
    + destruct (Ascii.eqb_spec a b) as [->|Hne].
      * rewrite IH. split; intros [post Hp]; exists post.
        -- by rewrite Hp.
        -- by injection Hp.
      * split; [done | intros [post Hp]; injection Hp; congruence].
Qed.

Lemma str_in_spec (needle hay : string) :
  str_in needle hay = true ↔ ∃ pre post, hay = pre +:+ needle +:+ post.
Proof.
  induction hay as [|c hay IH]; simpl.
  - rewrite orb_false_r, startswith_spec. split.
    + intros [post Hp]. by exists "", post.
    + intros [pre [post Hp]]. destruct pre; [by exists post | discriminate].
  - rewrite orb_true_iff, startswith_spec, IH. split.
    + intros [[post Hp] | [pre [post Hp]]].
      * by exists "", post.
      * exists (String c pre), post. simpl. by rewrite Hp.
    + intros [pre [post Hp]]. destruct pre as [|c' pre]; simpl in Hp.
      * left. by exists post.
      * right. exists pre, post. by injection Hp.
Qed.

(** ** The dependency classifier *)

Lemma stdlib_modules_spec (H : Host) (module_name : string) :
  module_name ∈ stdlib_modules H ↔
    module_name ∈ pkgutil_iter_modules H ∨ module_name ∈ sys_builtin_module_names H.
Proof. unfold stdlib_modules. set_solver. Qed.

Lemma path_match_spec (module_name : string) (codebase : gmap string string) :
  existsb (λ file_path, str_in module_name file_path) (map_to_list codebase).*1 = true ↔
    ∃ file_path pre post,
      file_path ∈ dom codebase ∧ file_path = pre +:+ module_name +:+ post.
Proof.
  rewrite existsb_exists. split.
  - intros [file_path [Hin Hsub]].
    apply str_in_spec in Hsub as [pre [post Heq]].
    exists file_path, pre, post. split; [|done].
    apply list_elem_of_In in Hin.
    apply list_elem_of_fmap in Hin as [[k v] [-> Hkv]].
    apply elem_of_map_to_list in Hkv. apply elem_of_dom. by exists v.
  - intros [file_path [pre [post [Hdom Heq]]]].
    exists file_path. split.
    + apply elem_of_dom in Hdom as [v Hv].
      apply list_elem_of_In, list_elem_of_fmap. exists (file_path, v).
      split; [done | by apply elem_of_map_to_list].
    + apply str_in_spec. by exists pre, post.
Qed.

(** C5: [is_external_module] answers [False] exactly when the name is among
    the modules the host runtime lists (whatever the code base holds) or
    occurs as a substring of some path key of the code base; in every
    other case it answers [True]. *)
Theorem is_external_module_spec (H : Host) (module_name : string)
    (codebase : gmap string string) :
  let known :=
    module_name ∈ pkgutil_iter_modules H ∨ module_name ∈ sys_builtin_module_names H in
  let in_some_path :=
    ∃ file_path pre post,
      file_path ∈ dom codebase ∧ file_path = pre +:+ module_name +:+ post in
  (is_external_module H module_name codebase = false ↔ known ∨ in_some_path) ∧
  (is_external_module H module_name codebase = true ↔ ¬ known ∧ ¬ in_some_path).
Proof.
  cbv zeta. rewrite <- stdlib_modules_spec, <- path_match_spec.
  unfold is_external_module.
  destruct (bool_decide_reflect (module_name ∈ stdlib_modules H)) as [Hk|Hk];
    destruct (existsb _ _) eqn:He; split; split; intros; try done;
    intuition congruence.
Qed.

(** ** The monad *)

Lemma bind_Ret {A B} (m : M A) (k : A → M B) (w w' : World) (a : A) :
  m w = (Ret a, w') → bind m k w = k a w'.
Proof. intros Hm. unfold bind. by rewrite Hm. Qed.

Lemma bind_Raise {A B} (m : M A) (k : A → M B) (w w' : World) (e : exn) :
  m w = (Raise e, w') → bind m k w = (Raise e, w').
Proof. intros Hm. unfold bind. by rewrite Hm. Qed.

Lemma try_finally_modify {A} (body : M A) (f : World → World) (w : World) :
  try_finally body (λ w0, (Ret tt, f w0)) w = ((body w).1, f (body w).2).
Proof. unfold try_finally. by destruct (body w). Qed.

(** ** Stand-ins *)

Lemma mocked_names_app (w w0 : World) (l : list (string * MockModule)) :
  mocked_names (set_mocked_modules (mocked_modules w ++ l) w0) = mocked_names w ++ l.*1.
Proof. unfold mocked_names. simpl. by rewrite fmap_app. Qed.

(** One request: nothing happens, or one stand-in is made and cached. *)
Lemma mock_one_cases (H : Host) (codebase : gmap string string)
    (module_name : string) (w : World) :
  ((is_external_module H module_name codebase = false ∨ module_name ∈ mocked_names w) ∧
   mock_one H codebase module_name w = (Ret tt, w)) ∨
  (is_external_module H module_name codebase = true ∧ (module_name ∉ mocked_names w) ∧
   mock_one H codebase module_name w =
     (Ret tt,
      set_mocked_modules
        (mocked_modules w ++ [(module_name, mock_of module_name (next_id w))])
        (set_next_id (next_id w + 3) w))).
Proof.
  unfold mock_one. destruct (is_external_module H module_name codebase).
  - unfold bind, get_world, is_mocked, mocked_names.
    destruct (bool_decide_reflect (module_name ∈ (mocked_modules w).*1)) as [Hin|Hout].
    + left. by split; [right|].
    + right. by repeat split.
  - left. by split; [left|].
Qed.

Lemma world_eta (w : World) :
  set_mocked_modules (mocked_modules w ++ []) (set_next_id (next_id w + 3 * 0) w) = w.
Proof.
  destruct w. unfold set_mocked_modules, set_next_id. simpl.
  by rewrite app_nil_r, Nat.add_0_r.
Qed.

(** The loop of [mock_external_modules] never raises; it appends to the
    cache one fresh stand-in for each distinct import that is external and
    not cached yet, in the order of first occurrence, and touches nothing
    else but the identity counter. *)
Lemma for_each_mock_one (H : Host) (codebase : gmap string string)
    (imports : list string) (w : World) :
  ∃ added : list (string * MockModule),
    for_each imports (mock_one H codebase) w =
      (Ret tt,
       set_mocked_modules (mocked_modules w ++ added)
         (set_next_id (next_id w + 3 * length added) w)) ∧
    NoDup added.*1 ∧
    (∀ name, name ∈ added.*1 ↔
       name ∈ imports ∧ is_external_module H name codebase = true ∧
       (name ∉ mocked_names w)) ∧
    (∀ k name m, added !! k = Some (name, m) → m = mock_of name (next_id w + 3 * k)).
Proof.
  revert w. induction imports as [|n rest IH]; intros w.
  - exists []. simpl. rewrite world_eta. split_and!; try done.
    + constructor.
    + intros name. split; [by intros ?%elem_of_nil | by intros [?%elem_of_nil _]].
  - simpl. destruct (mock_one_cases H codebase n w) as [[Hskip Hw] | (Hext & Hnew & Hw)].
    + destruct (IH w) as (added & Hrun & Hnd & Hiff & Hids).
      exists added. rewrite (bind_Ret _ _ _ _ _ Hw). split_and!; try done.
      intros name. rewrite Hiff, elem_of_cons. split.
      * intros (Hin & He & Hn). by split_and!; [right | |].
      * intros ([-> | Hin] & He & Hn); [|done].
        destruct Hskip as [Hf | Hc]; [congruence | done].
    + set (w1 := set_mocked_modules _ _) in Hw.
      destruct (IH w1) as (added & Hrun & Hnd & Hiff & Hids).
      exists ((n, mock_of n (next_id w)) :: added).
      rewrite (bind_Ret _ _ _ _ _ Hw), Hrun. split_and!.
      * f_equal. unfold w1, set_mocked_modules, set_next_id. simpl.
        rewrite <- app_assoc. simpl. f_equal. lia.
      * simpl. constructor; [|done]. intros Hin. apply Hiff in Hin as (_ & _ & Hn).
        apply Hn. unfold w1. rewrite mocked_names_app. simpl. set_solver.
      * intros name. simpl. rewrite elem_of_cons, Hiff, elem_of_cons.
        unfold w1. rewrite mocked_names_app. simpl.
        split.
        -- intros [-> | (Hin & He & Hn)]; [by auto |].
           split_and!; [by right | done | set_solver].
        -- intros ([-> | Hin] & He & Hn); [by left |].
           destruct (decide (name = n)) as [-> | Hne]; [by left | right].
           split_and!; [done | done | set_solver].
      * intros [|k] name m Hk; simpl in Hk.
        -- injection Hk as <- <-. f_equal. lia.
        -- apply Hids in Hk. rewrite Hk. f_equal. unfold w1. simpl. lia.
Qed.

(** ** The sandbox *)

Lemma fs_only_refl (w : World) : fs_only w w.
Proof. by repeat split. Qed.

Lemma fs_only_trans (w1 w2 w3 : World) : fs_only w1 w2 → fs_only w2 w3 → fs_only w1 w3.
Proof. unfold fs_only. intros (?&?&?&?&?&?) (?&?&?&?&?&?). split_and!; congruence. Qed.

Lemma os_makedirs_fs_only (H : Host) (d : string) (w : World) :
  fs_only w (os_makedirs H d w).2.
Proof. unfold os_makedirs. by destruct (makedirs_error _ _ _); repeat split. Qed.

Lemma write_file_fs_only (H : Host) (p c : string) (w : World) :
  fs_only w (write_file H p c w).2.
Proof. unfold write_file. by destruct (open_error _ _ _); repeat split. Qed.

Lemma bind_fs_only {A B} (m : M A) (k : A → M B) (w : World) :
  fs_only w (m w).2 → (∀ a w1, fs_only w1 (k a w1).2) → fs_only w (bind m k w).2.
Proof.
  intros Hm Hk. unfold bind. destruct (m w) as [[a|e] w1] eqn:E; simpl in *.
  - eapply fs_only_trans; [done | apply Hk].
  - done.
Qed.

Lemma write_project_fs_only (H : Host) (d : string) (codebase : gmap string string)
    (w : World) :
  fs_only w (write_project H d codebase w).2.
Proof.
  unfold write_project. revert w.
  induction (map_to_list codebase) as [|item items IH]; intros w.
  - apply fs_only_refl.
  - simpl. apply bind_fs_only; [|intros; apply IH].
    apply bind_fs_only; [apply os_makedirs_fs_only | intros; apply write_file_fs_only].
Qed.

(** The [try] block always produces a result: whatever the child does is
    reported, and recorded as the last entry of [children]. *)
Lemma run_and_report_spec (H : Host) (d : string) (w : World) :
  let p := subprocess_run H 10 (clock w) d (files w) in
  ∃ r, run_and_report H d w = (Ret r, set_children (children w ++ [(d, p)]) (tick w)) ∧
       reports r p ∧ mocked_modules_used r = mocked_names w.
Proof.
  cbv zeta. unfold run_and_report, try_except, run_subprocess, bind, mocked_keys, ret.
  destruct (subprocess_run H 10 (clock w) d (files w)) as [e|cp]; simpl.
  - destruct (decide (exn_cls e = TimeoutExpired)) as [Ht|Ht];
      eexists; (split; [done|]); (split; [|done]); simpl;
      by destruct (decide (exn_cls e = TimeoutExpired)).
  - eexists. split; [done|]. split; [|done]. simpl. split; [apply Z.eqb_eq | done].
Qed.

Lemma prepare_fs_only (H : Host) (code : string) (codebase : gmap string string)
    (d : string) (w : World) :
  fs_only w (prepare H code codebase d w).2.
Proof.
  unfold prepare. apply bind_fs_only; [apply write_project_fs_only |].
  intros. apply write_file_fs_only.
Qed.

(** The three ways through the [with] block: the files cannot be written,
    the snippet cannot be parsed, or the child is run and reported. *)
Lemma run_in_cases (H : Host) (code : string) (codebase : gmap string string)
    (d : string) (w : World) :
  let w1 := (prepare H code codebase d w).2 in
  match (prepare H code codebase d w).1, ast_parse_walk H code with
  | Raise e, _ => run_in H code codebase d w = (Raise e, w1)
  | Ret _, inl e => run_in H code codebase d w = (Raise e, w1)
  | Ret _, inr nodes =>
      ∃ added r,
        let p := subprocess_run H 10 (clock w1) d (files w1) in
        run_in H code codebase d w = (Ret r, after_child d added p w1) ∧
        reports r p ∧
        mocked_modules_used r = mocked_names w1 ++ added.*1 ∧
        NoDup added.*1 ∧
        (∀ name, name ∈ added.*1 ↔
           name ∈ flat_map imports_of_node nodes ∧
           is_external_module H name codebase = true ∧ (name ∉ mocked_names w1)) ∧
        (∀ k name m, added !! k = Some (name, m) →
           m = mock_of name (next_id w1 + 3 * k))
  end.
Proof.
  cbv zeta. unfold run_in, prepare, bind.
  destruct (write_project H d codebase w) as [[[]|e] wa]; simpl; [|done].
  destruct (write_file H _ code wa) as [[[]|e] w1]; simpl; [|done].
  unfold mock_external_modules, analyze_imports, bind.
  destruct (ast_parse_walk H code) as [e|nodes]; [done|]. simpl.
  destruct (for_each_mock_one H codebase (flat_map imports_of_node nodes) w1)
    as (added & Hrun & Hnd & Hiff & Hids).
  rewrite Hrun. cbn beta iota. unfold unpatch_modules, modify_world.
  rewrite try_finally_modify.
  set (w2 := set_mocked_modules _ _).
  destruct (run_and_report_spec H d (patched w2)) as (r & Hr & Hrep & Hused).
  exists added, r. rewrite Hr. split_and!; try done.
  rewrite Hused. unfold w2, mocked_names. simpl. by rewrite fmap_app.
Qed.

Lemma run_unfold (H : Host) (code : string) (codebase : gmap string string) (w : World) :
  run H code codebase w =
    match mkdtemp H (clock w) with
    | inl e => (Raise e, tick w)
    | inr d =>
        ((run_in H code codebase d (entered d w)).1,
         remove_tree H d (run_in H code codebase d (entered d w)).2)
    end.
Proof.
  unfold run, with_TemporaryDirectory, bind, TemporaryDirectory_enter.
  destruct (mkdtemp H (clock w)) as [e|d]; [done|].
  unfold rmtree, modify_world. by rewrite try_finally_modify.
Qed.

(** Every way through [run]. *)
Lemma run_cases (H : Host) (code : string) (codebase : gmap string string) (w : World) :
  match mkdtemp H (clock w) with
  | inl e => run H code codebase w = (Raise e, tick w)
  | inr d =>
      let w1 := (prepare H code codebase d (entered d w)).2 in
      fs_only w w1 ∧
      match (prepare H code codebase d (entered d w)).1, ast_parse_walk H code with
      | Raise e, _ => run H code codebase w = (Raise e, remove_tree H d w1)
      | Ret _, inl e => run H code codebase w = (Raise e, remove_tree H d w1)
      | Ret _, inr nodes =>
          ∃ added r,
            let p := subprocess_run H 10 (clock w1) d (files w1) in
            run H code codebase w = (Ret r, remove_tree H d (after_child d added p w1)) ∧
            reports r p ∧
            mocked_modules_used r = mocked_names w ++ added.*1 ∧
            NoDup added.*1 ∧
            (∀ name, name ∈ added.*1 ↔
               name ∈ flat_map imports_of_node nodes ∧
               is_external_module H name codebase = true ∧ (name ∉ mocked_names w)) ∧
            (∀ k name m, added !! k = Some (name, m) →
               m = mock_of name (next_id w + 3 * k))
      end
  end.
Proof.
  rewrite run_unfold. destruct (mkdtemp H (clock w)) as [e|d]; [done|].
  cbv zeta.
  assert (Hfs : fs_only w (prepare H code codebase d (entered d w)).2).
  { eapply fs_only_trans; [|apply prepare_fs_only]. by repeat split. }
  split; [done|].
  pose proof (run_in_cases H code codebase d (entered d w)) as Hin. cbv zeta in Hin.
  destruct Hfs as (_ & Hmm & Hid & _).
  destruct (prepare H code codebase d (entered d w)) as [[[]|e] w1]; simpl in *.
  - destruct (ast_parse_walk H code) as [e|nodes].
    + by rewrite Hin.
    + destruct Hin as (added & r & Hrun & Hrep & Hused & Hnd & Hiff & Hids).
      exists added, r. rewrite Hrun. unfold mocked_names in *.
      rewrite Hmm in Hused, Hiff. rewrite Hid in Hids. by split_and!.
  - by rewrite Hin.
Qed.

Lemma lookup_foldl_delete {V} (names : list string) (sm : gmap string V) (name : string) :
  foldl (λ sm n, delete n sm) sm names !! name =
    if decide (name ∈ names) then None else sm !! name.
Proof.
  revert sm. induction names as [|n names IH]; intros sm.
  - case_decide; [by apply elem_of_nil in H | done].
  - simpl. rewrite IH. repeat case_decide; try done.
    + exfalso. set_solver.
    + destruct (decide (name = n)) as [->|Hne]; [apply lookup_delete_eq | set_solver].
    + rewrite lookup_delete_ne; [done | set_solver].
Qed.

Lemma filter_fresh_nil (known l : list string) :
  (∀ x, x ∈ l → x ∈ known) → filter (λ x, x ∉ known) l = [].
Proof.
  induction l as [|x l IH]; intros Hsub; [done|].
  rewrite filter_cons. case_decide as Hx.
  - exfalso. apply Hx, Hsub. by left.
  - apply IH. intros y Hy. apply Hsub. by right.
Qed.

Lemma filter_fresh_all (known l : list string) :
  (∀ x, x ∈ l → x ∉ known) → filter (λ x, x ∉ known) l = l.
Proof.
  induction l as [|x l IH]; intros Hnew; [done|].
  rewrite filter_cons. case_decide as Hx.
  - f_equal. apply IH. intros y Hy. apply Hnew. by right.
  - exfalso. eapply Hnew; [by left | done].
Qed.

Lemma registered_during_same (w w' : World) :
  mocked_modules w' = mocked_modules w → registered_during w w' = [].
Proof.
  intros Heq. unfold registered_during, mocked_names. rewrite Heq.
  by apply filter_fresh_nil.
Qed.

Lemma registered_during_app (w w' : World) (added : list string) :
  mocked_names w' = mocked_names w ++ added →
  (∀ x, x ∈ added → x ∉ mocked_names w) →
  registered_during w w' = added.
Proof.
  intros Heq Hnew. unfold registered_during. rewrite Heq, filter_app.
  rewrite filter_fresh_nil by done. by rewrite filter_fresh_all.
Qed.

Lemma remove_tree_gone (H : Host) (d : string) (w : World) :
  (d ∉ directories (remove_tree H d w)) ∧
  ∀ p, path_inside H d p = true →
       (p ∉ directories (remove_tree H d w)) ∧ files (remove_tree H d w) !! p = None.
Proof.
  unfold remove_tree. simpl. split.
  - rewrite elem_of_filter. set_solver.
  - intros p Hp. split.
    + rewrite elem_of_filter. intros [Hq _]. congruence.
    + apply map_lookup_filter_None. right. intros v _. simpl. congruence.
Qed.

(** C2: whatever way [run] ends (result or exception), no name registered
    during the call is left in [sys.modules], and the temporary directory,
    if one was made, no longer exists, nor does anything below it. *)
Theorem run_cleans_up (H : Host) (code : string) (codebase : gmap string string)
    (w : World) :
  let w' := (run H code codebase w).2 in
  Forall (λ name, sys_modules w' !! name = None) (registered_during w w') ∧
  match mkdtemp H (clock w) with
  | inr d =>
      (d ∉ directories w') ∧
      ∀ p, path_inside H d p = true → (p ∉ directories w') ∧ files w' !! p = None
  | inl _ => directories w' = directories w ∧ files w' = files w
  end.
Proof.
  cbv zeta. pose proof (run_cases H code codebase w) as Hc.
  destruct (mkdtemp H (clock w)) as [e|d].
  - rewrite Hc. simpl. split; [|done].
    by rewrite registered_during_same.
  - cbv zeta in Hc. destruct Hc as [Hfs Hc].
    set (w1 := (prepare H code codebase d (entered d w)).2) in *.
    assert (Hearly : ∀ e, run H code codebase w = (Raise e, remove_tree H d w1) →
      Forall (λ name, sys_modules (run H code codebase w).2 !! name = None)
        (registered_during w (run H code codebase w).2) ∧
      (d ∉ directories (run H code codebase w).2) ∧
      ∀ p, path_inside H d p = true →
           (p ∉ directories (run H code codebase w).2) ∧
           files (run H code codebase w).2 !! p = None).
    { intros e ->. simpl. split; [|apply remove_tree_gone].
      rewrite registered_during_same; [done|]. simpl. apply Hfs. }
    destruct (prepare H code codebase d (entered d w)).1 as [[]|e]; [|by apply (Hearly e)].
    destruct (ast_parse_walk H code) as [e|nodes]; [by apply (Hearly e)|].
    destruct Hc as (added & r & Hrun & _). rewrite Hrun. simpl.
    split; [|apply remove_tree_gone].
    apply Forall_forall. intros name Hname.
    unfold registered_during in Hname. apply list_elem_of_filter in Hname as [_ Hname].
    rewrite lookup_foldl_delete. by rewrite decide_True.
Qed.

(** C3: every result that [run] returns reports the child process the
    host started in the temporary directory, on the files just written
    there.  If the child ended within the ten seconds, [success] holds
    iff its exit status is zero, and [output] is its stdout on success
    and its stderr otherwise.  If it took longer, or never ends, the
    result has [success = False] and the fixed message
    [Execution timed out].  If [subprocess.run] raises anything else, the
    result has [success = False] and that exception's text.  Whatever the
    child does, no exception leaves [run]: when [run] raises, no child
    was started, and the exception is that of making the directory, of
    writing the files or of parsing the snippet. *)
Theorem run_reports_child (H : Host) (code : string) (codebase : gmap string string)
    (w w' : World) (o : outcome ExecutionResult) :
  run H code codebase w = (o, w') →
  (∀ r, o = Ret r →
     ∃ d, mkdtemp H (clock w) = inr d ∧
       let w1 := (prepare H code codebase d (entered d w)).2 in
       children w' = children w ++ [(d, subprocess_run H 10 (clock w1) d (files w1))] ∧
       match child_process H (clock w1) d (files w1) with
       | Exits elapsed cp =>
           if (10 <? elapsed)%nat
           then success r = false ∧ output r = "Execution timed out"
           else (success r = true ↔ returncode cp = 0%Z) ∧
                output r = (if success r then stdout cp else stderr cp)
       | NeverExits => success r = false ∧ output r = "Execution timed out"
       | Fails e =>
           success r = false ∧
           output r = (if decide (exn_cls e = TimeoutExpired)
                       then "Execution timed out" else exn_str e)
       end) ∧
  (∀ e, o = Raise e →
     children w' = children w ∧
     (mkdtemp H (clock w) = inl e ∨
      ∃ d, mkdtemp H (clock w) = inr d ∧
           ((prepare H code codebase d (entered d w)).1 = Raise e ∨
            ast_parse_walk H code = inl e))).
Proof.
  intros Hrun. pose proof (run_cases H code codebase w) as Hc.
  destruct (mkdtemp H (clock w)) as [e|d] eqn:Hd.
  - rewrite Hc in Hrun. injection Hrun as <- <-. split; [done|].
    intros e' [= <-]. split; [done | by left].
  - cbv zeta in Hc. destruct Hc as [Hfs Hc].
    set (w1 := (prepare H code codebase d (entered d w)).2) in *.
    assert (Hch1 : children w1 = children w) by apply Hfs.
    destruct (prepare H code codebase d (entered d w)).1 as [[]|e] eqn:Hprep.
    + destruct (ast_parse_walk H code) as [e|nodes] eqn:Hparse.
      * rewrite Hc in Hrun. injection Hrun as <- <-. split; [done|].
        intros e' [= <-]. simpl. split; [done|]. right. exists d. split; [done | by right].
      * destruct Hc as (added & r & Hr & Hrep & _).
        rewrite Hr in Hrun. injection Hrun as <- <-. split; [|done].
        intros r' [= <-]. exists d. split; [done|]. cbv zeta. fold w1.
        split; [simpl; by rewrite Hch1|].
        cbv zeta in Hrep. unfold reports, subprocess_run in Hrep.
        destruct (child_process H (clock w1) d (files w1)) as [e|elapsed cp|].
        -- done.
        -- destruct (10 <? elapsed)%nat; [|done].
           destruct Hrep as [Hs Ho]. split; [done|]. rewrite Ho. by rewrite decide_True.
        -- destruct Hrep as [Hs Ho]. split; [done|]. rewrite Ho. by rewrite decide_True.
    + rewrite Hc in Hrun. injection Hrun as <- <-. split; [done|].
      intros e' [= <-]. simpl. split; [done|]. right. exists d. split; [done | by left].
Qed.

(** C4, as the code has it: the [mocked_modules] field of a result lists
    every name in the executor's cache, in the order of registration: the
    names cached by earlier calls on the same executor, followed by the
    names registered during this call.  These are, without repetition,
    the imports of the snippet that are external and were not cached
    before.  On an executor with an empty cache the field is exactly the
    list of names registered during the call. *)
Theorem run_stand_ins_used (H : Host) (code : string) (codebase : gmap string string)
    (w w' : World) (r : ExecutionResult) :
  run H code codebase w = (Ret r, w') →
  mocked_modules_used r = mocked_names w ++ registered_during w w' ∧
  mocked_modules_used r = mocked_names w' ∧
  NoDup (registered_during w w') ∧
  (∃ nodes, ast_parse_walk H code = inr nodes ∧
     ∀ name, name ∈ registered_during w w' ↔
       name ∈ flat_map imports_of_node nodes ∧
       is_external_module H name codebase = true ∧ (name ∉ mocked_names w)) ∧
  (mocked_names w = [] → mocked_modules_used r = registered_during w w').
Proof.
  intros Hrun. pose proof (run_cases H code codebase w) as Hc.
  destruct (mkdtemp H (clock w)) as [e|d]; [by rewrite Hc in Hrun|].
  cbv zeta in Hc. destruct Hc as [Hfs Hc].
  set (w1 := (prepare H code codebase d (entered d w)).2) in *.
  destruct (prepare H code codebase d (entered d w)).1 as [[]|e];
    [|by rewrite Hc in Hrun].
  destruct (ast_parse_walk H code) as [e|nodes]; [by rewrite Hc in Hrun|].
  destruct Hc as (added & r0 & Hr & _ & Hused & Hnd & Hiff & _).
  rewrite Hr in Hrun. injection Hrun as <- <-.
  assert (Hnames : mocked_names
            (remove_tree H d
               (after_child d added (subprocess_run H 10 (clock w1) d (files w1)) w1)) =
          mocked_names w ++ added.*1).
  { unfold mocked_names. simpl. rewrite fmap_app.
    by replace (mocked_modules w1) with (mocked_modules w) by (symmetry; apply Hfs). }
  assert (Hreg : registered_during w
            (remove_tree H d
               (after_child d added (subprocess_run H 10 (clock w1) d (files w1)) w1)) =
          added.*1).
  { apply registered_during_app; [done|]. intros x Hx.
    by apply Hiff in Hx as (_ & _ & Hx). }
  rewrite Hreg, Hnames. split_and!; try done.
  - by exists nodes.
  - intros Hempty. by rewrite Hused, Hempty.
Qed.

(** ** The sandbox on the example host *)

Example run_builtin_only :
  (run Demo.host Demo.snippet_print ∅ Demo.start).1 =
    Ret {| success := true; output := "4"; mocked_modules_used := [] |}.
Proof. vm_compute. reflexivity. Qed.

Example run_fake_pkg :
  (run Demo.host Demo.snippet_fake ∅ Demo.start).1 =
    Ret {| success := true; output := "4";
           mocked_modules_used := ["numpy_like_fake_pkg"] |}.
Proof. vm_compute. reflexivity. Qed.

Example run_infinite_loop :
  (run Demo.host Demo.snippet_loop ∅ Demo.start).1 =
    Ret {| success := false; output := "Execution timed out";
           mocked_modules_used := [] |}.
Proof. vm_compute. reflexivity. Qed.

(** C1 fails on the code: the snippet is parsed (and the project files
    are written) before the [try] block of [run] is entered, so a snippet
    that [ast.parse] rejects makes [run] raise [SyntaxError] instead of
    returning a result with [success = False]. *)
Theorem run_raises_on_unparsable_snippet :
  (run Demo.host Demo.snippet_bad ∅ Demo.start).1 = Raise Demo.syntax_error.
Proof. vm_compute. reflexivity. Qed.

Lemma write_project_ok (H : Host) (d : string) (codebase : gmap string string) (w : World) :
  (∀ n p, makedirs_error H n p = None) → (∀ n p, open_error H n p = None) →
  (write_project H d codebase w).1 = Ret tt.
Proof.
  intros Hmk Hop. unfold write_project. revert w.
  induction (map_to_list codebase) as [|item items IH]; intros w; [done|].
  simpl. unfold bind at 1 2, os_makedirs, write_file. rewrite Hmk, Hop. apply IH.
Qed.

Lemma prepare_ok (H : Host) (code : string) (codebase : gmap string string)
    (d : string) (w : World) :
  (∀ n p, makedirs_error H n p = None) → (∀ n p, open_error H n p = None) →
  (prepare H code codebase d w).1 = Ret tt.
Proof.
  intros Hmk Hop. unfold prepare, bind.
  pose proof (write_project_ok H d codebase w Hmk Hop) as Hw.
  destruct (write_project H d codebase w) as [[[]|e] w1]; [|done].
  unfold write_file. by rewrite Hop.
Qed.

(** On any host whose file system does not fail, [run] raises what
    [ast.parse] raises. *)
Lemma run_propagates_parse_error (H : Host) (code : string)
    (codebase : gmap string string) (w : World) (d : string) (e : exn) :
  mkdtemp H (clock w) = inr d →
  (∀ n p, makedirs_error H n p = None) → (∀ n p, open_error H n p = None) →
  ast_parse_walk H code = inl e →
  (run H code codebase w).1 = Raise e.
Proof.
  intros Hd Hmk Hop He. pose proof (run_cases H code codebase w) as Hc.
  rewrite Hd in Hc. cbv zeta in Hc. destruct Hc as [_ Hc].
  rewrite (prepare_ok H code codebase d _ Hmk Hop), He in Hc. by rewrite Hc.
Qed.

(** On any host whose file system does not fail, [run] returns a result
    for every snippet that parses. *)
Lemma run_returns (H : Host) (code : string) (codebase : gmap string string)
    (w : World) (nodes : list ast_node) :
  (∀ n, ∃ d, mkdtemp H n = inr d) →
  (∀ n p, makedirs_error H n p = None) → (∀ n p, open_error H n p = None) →
  ast_parse_walk H code = inr nodes →
  ∃ r, (run H code codebase w).1 = Ret r.
Proof.
  intros Hd Hmk Hop He. pose proof (run_cases H code codebase w) as Hc.
  destruct (Hd (clock w)) as [d Hdw]. rewrite Hdw in Hc.
  cbv zeta in Hc. destruct Hc as [_ Hc].
  rewrite (prepare_ok H code codebase d _ Hmk Hop), He in Hc.
  destruct Hc as (added & r & Hr & _). exists r. by rewrite Hr.
Qed.

Lemma run_reports_child_witness :
  ∃ r w', run Demo.host Demo.snippet_loop ∅ Demo.start = (Ret r, w') ∧
          success r = false ∧ output r = "Execution timed out".
Proof.
  eexists _, _. split; [vm_compute; reflexivity|].
  edestruct (run_reports_child Demo.host Demo.snippet_loop ∅ Demo.start) as [Hr _];
    [vm_compute; reflexivity|].
  destruct (Hr _ eq_refl) as (d & Hd & _ & Hchild).
  vm_compute in Hd. injection Hd as <-. vm_compute in Hchild. exact Hchild.
Defined.

Example run_fake_pkg_cleanup :
  let w' := (run Demo.host Demo.snippet_fake ∅ Demo.start).2 in
  registered_during Demo.start w' = ["numpy_like_fake_pkg"] ∧
  sys_modules w' = sys_modules Demo.start ∧
  directories w' = ∅ ∧ files w' = ∅.
Proof. vm_compute. by split_and!. Qed.

(** ** The stand-in cache *)

Lemma mocked_get_is_Some (name : string) (w : World) :
  is_Some (mocked_get name w) ↔ name ∈ mocked_names w.
Proof.
  unfold mocked_get, mocked_names. rewrite fmap_is_Some. split.
  - intros [[i kv] Hf]. apply list_find_Some in Hf as (Hi & <- & _).
    apply list_elem_of_fmap. exists kv. split; [done|].
    by apply list_elem_of_lookup_2 in Hi.
  - intros Hin. apply list_elem_of_fmap in Hin as [kv [-> Hkv]].
    by eapply list_find_elem_of.
Qed.

Lemma mocked_get_app (name : string) (m : MockModule) (w w' : World)
    (added : list (string * MockModule)) :
  mocked_modules w' = mocked_modules w ++ added →
  mocked_get name w = Some m → mocked_get name w' = Some m.
Proof.
  unfold mocked_get. intros -> Hget.
  destruct (list_find _ (mocked_modules w)) as [[i kv]|] eqn:Hf; [|done].
  by rewrite (list_find_app_l _ _ _ _ _ Hf).
Qed.

(** When every external import is cached already, the loop of
    [mock_external_modules] changes nothing. *)
Lemma for_each_mock_one_noop (H : Host) (codebase : gmap string string)
    (imports : list string) (w : World) :
  (∀ name, name ∈ imports → is_external_module H name codebase = true →
           name ∈ mocked_names w) →
  for_each imports (mock_one H codebase) w = (Ret tt, w).
Proof.
  induction imports as [|n rest IH]; intros Hall; [done|].
  simpl. destruct (mock_one_cases H codebase n w) as [[_ Hw] | (Hext & Hnew & _)].
  - rewrite (bind_Ret _ _ _ _ _ Hw). apply IH. intros name Hin. apply Hall. by right.
  - exfalso. apply Hnew, Hall; [by left | done].
Qed.

(** C8: while a snippet's imports are processed, every external import
    gets a stand-in; exactly one stand-in is made for each distinct
    external name that had none (three fresh objects apiece: the mock, its
    loader and its spec); a name that already has a stand-in keeps the
    same object; and asking again, for one name or for the whole snippet,
    makes nothing new and leaves the cache as it is. *)
Theorem stand_in_idempotent (H : Host) (code : string) (codebase : gmap string string)
    (w : World) (nodes : list ast_node) :
  ast_parse_walk H code = inr nodes →
  let imports := flat_map imports_of_node nodes in
  let w' := (mock_external_modules H code codebase w).2 in
  (mock_external_modules H code codebase w).1 = Ret tt ∧
  (∀ name, name ∈ imports → is_external_module H name codebase = true →
           is_Some (mocked_get name w')) ∧
  (∃ added,
     mocked_modules w' = mocked_modules w ++ added ∧
     NoDup added.*1 ∧
     next_id w' = next_id w + 3 * length added ∧
     (∀ name, name ∈ added.*1 ↔
        name ∈ imports ∧ is_external_module H name codebase = true ∧
        (name ∉ mocked_names w)) ∧
     (∀ k name m, added !! k = Some (name, m) →
        m = mock_of name (next_id w + 3 * k))) ∧
  (∀ name m, mocked_get name w = Some m → mocked_get name w' = Some m) ∧
  (∀ name, name ∈ imports ∨ name ∈ mocked_names w →
           mock_one H codebase name w' = (Ret tt, w')) ∧
  mock_external_modules H code codebase w' = (Ret tt, w').
Proof.
  intros Hparse. cbv zeta. unfold mock_external_modules, analyze_imports, bind.
  rewrite Hparse. simpl.
  destruct (for_each_mock_one H codebase (flat_map imports_of_node nodes) w)
    as (added & Hrun & Hnd & Hiff & Hids).
  rewrite Hrun. simpl.
  set (w' := set_mocked_modules _ _).
  assert (Hmm : mocked_modules w' = mocked_modules w ++ added) by done.
  assert (Hnames : mocked_names w' = mocked_names w ++ added.*1).
  { unfold mocked_names. by rewrite Hmm, fmap_app. }
  assert (Hcached : ∀ name, name ∈ flat_map imports_of_node nodes →
            is_external_module H name codebase = true → name ∈ mocked_names w').
  { intros name Hin Hext. rewrite Hnames, elem_of_app.
    destruct (decide (name ∈ mocked_names w)) as [Hk|Hk]; [by left | right].
    by apply Hiff. }
  split_and!.
  - done.
  - intros name Hin Hext. apply mocked_get_is_Some. by apply Hcached.
  - exists added. by split_and!.
  - intros name m. by apply mocked_get_app with added.
  - intros name Hname.
    destruct (mock_one_cases H codebase name w') as [[_ Hw] | (Hext & Hnew & _)];
      [done | exfalso].
    apply Hnew. destruct Hname as [Hin | Hk]; [by apply Hcached|].
    rewrite Hnames, elem_of_app. by left.
  - by apply for_each_mock_one_noop.
Qed.

Lemma stand_in_idempotent_witness :
  ∃ a b c,
    mocked_modules
      (mock_external_modules Demo.host Demo.snippet_twice ∅ Demo.start).2 =
      [("fake_a", a)] ∧
    mock_external_modules Demo.host Demo.snippet_twice ∅
      (mock_external_modules Demo.host Demo.snippet_twice ∅ Demo.start).2 =
      (Ret tt, (mock_external_modules Demo.host Demo.snippet_twice ∅ Demo.start).2) ∧
    mock_id a = 0 ∧ mock_loader a = b ∧ mock_spec a = c.
Proof.
  eexists _, _, _. split; [vm_compute; reflexivity|]. split.
  - eapply (stand_in_idempotent Demo.host Demo.snippet_twice ∅ Demo.start).
    vm_compute. reflexivity.
  - vm_compute. by split_and!.
Defined.

(** ** The names a result lists *)

(** C4 as stated fails: a second call on the same executor, for a snippet
    that imports nothing, registers no name and still lists the name the
    first call registered. *)
Lemma stand_ins_used_not_per_call :
  ¬ (∀ (H : Host) code codebase w r w',
       run H code codebase w = (Ret r, w') →
       mocked_modules_used r = registered_during w w').
Proof.
  intros Hall.
  specialize (Hall Demo.host Demo.snippet_print ∅
                (run Demo.host Demo.snippet_fake ∅ Demo.start).2).
  edestruct (run Demo.host Demo.snippet_print ∅
               (run Demo.host Demo.snippet_fake ∅ Demo.start).2) as [o w2] eqn:E.
  vm_compute in E. injection E as <- <-.
  specialize (Hall _ _ eq_refl). vm_compute in Hall. discriminate Hall.
Qed.

Lemma run_stand_ins_used_witness :
  ∃ r w2,
    run Demo.host Demo.snippet_twice ∅
      (run Demo.host Demo.snippet_fake ∅ Demo.start).2 = (Ret r, w2) ∧
    mocked_modules_used r = ["numpy_like_fake_pkg"; "fake_a"] ∧
    mocked_modules_used r =
      mocked_names (run Demo.host Demo.snippet_fake ∅ Demo.start).2 ++
      registered_during (run Demo.host Demo.snippet_fake ∅ Demo.start).2 w2.
Proof.
  eexists _, _. split; [vm_compute; reflexivity|]. split; [reflexivity|].
  eapply (run_stand_ins_used Demo.host Demo.snippet_twice ∅).
  vm_compute. reflexivity.
Defined.

(** ** [run_tests] *)

Lemma run_one_test_fold (H : Host) (mc : GeneratedCode) (codebase : list CodeFile)
    (w w' : World) (ts : list TestCode) (rs : list ExecutionResult) :
  sandbox_runs H (updated_codebase mc codebase) w ts rs w' →
  ∀ u0 s0,
    for_fold ts (u0, s0) (run_one_test H mc codebase) w =
      (Ret (u0 ++ failing (outcomes ts rs), s0 ++ passing (outcomes ts rs)), w').
Proof.
  induction 1 as [w | w t ts r rs w1 w2 Hrun _ IH]; intros u0 s0.
  - simpl. by rewrite !app_nil_r.
  - simpl. unfold run_one_test at 1, bind at 1 2. rewrite Hrun.
    unfold outcomes, failing, passing in *. simpl. rewrite !filter_cons. simpl.
    destruct (success r); simpl; rewrite IH; by rewrite <- app_assoc.
Qed.

Lemma run_one_test_fold_inv (H : Host) (mc : GeneratedCode) (codebase : list CodeFile)
    (ts : list TestCode) :
  ∀ w w' u0 s0 u s,
    for_fold ts (u0, s0) (run_one_test H mc codebase) w = (Ret (u, s), w') →
    ∃ rs, sandbox_runs H (updated_codebase mc codebase) w ts rs w' ∧
          u = u0 ++ failing (outcomes ts rs) ∧ s = s0 ++ passing (outcomes ts rs).
Proof.
  induction ts as [|t ts IH]; intros w w' u0 s0 u s Hf.
  - injection Hf as <- <- <-. exists []. rewrite !app_nil_r. split_and!; [constructor|done..].
  - simpl in Hf. unfold run_one_test at 1, bind at 1 2 in Hf.
    destruct (run H (tc_test_code t) (updated_codebase mc codebase) w) as [[r|e] w1] eqn:Hrun;
      [|done].
    assert (Hcons : ∀ rs, sandbox_runs H (updated_codebase mc codebase) w1 ts rs w' →
              sandbox_runs H (updated_codebase mc codebase) w (t :: ts) (r :: rs) w')
      by (intros rs; by apply sandbox_runs_cons).
    unfold outcomes, failing, passing in *. simpl in *.
    destruct (success r) eqn:Hs; simpl in Hf; apply IH in Hf as (rs & Hruns & -> & ->);
      exists (r :: rs); simpl; rewrite !filter_cons; simpl; rewrite Hs; simpl.
    + split_and!; [by apply Hcons | done | by rewrite <- app_assoc].
    + split_and!; [by apply Hcons | by rewrite <- app_assoc | done].
Qed.




(** What [run_tests] returns is always such a partition. *)
Lemma run_tests_returns_inv (H : Host) (mc : GeneratedCode) (codebase : list CodeFile)
    (w w' : World) (u s : list TestResult) :
  run_tests H mc codebase w = (Ret (u, s), w') →
  ∃ resp w0 rs,
    generate_test_code H mc w = (Ret resp, w0) ∧
    sandbox_runs H (updated_codebase mc codebase) w0 (tests resp) rs w' ∧
    u = failing (outcomes (tests resp) rs) ∧ s = passing (outcomes (tests resp) rs).
Proof.
  unfold run_tests, bind. intros Hrun.
  destruct (generate_test_code H mc w) as [[resp|e] w0]; [|done].
  apply run_one_test_fold_inv in Hrun as (rs & Hruns & -> & ->).
  by exists resp, w0, rs.
Qed.

(** [run_tests] raises only what test generation or a sandbox run raised. *)
Lemma run_tests_raises_inv (H : Host) (mc : GeneratedCode) (codebase : list CodeFile)
    (w w' : World) (e : exn) :
  run_tests H mc codebase w = (Raise e, w') →
  generate_test_code H mc w = (Raise e, w') ∨
  ∃ resp w0 ts1 t ts2 rs w1,
    generate_test_code H mc w = (Ret resp, w0) ∧
    tests resp = ts1 ++ t :: ts2 ∧
    sandbox_runs H (updated_codebase mc codebase) w0 ts1 rs w1 ∧
    run H (tc_test_code t) (updated_codebase mc codebase) w1 = (Raise e, w').
Proof.
  unfold run_tests, bind. intros Hrun.
  destruct (generate_test_code H mc w) as [[resp|e0] w0]; [right | left; congruence].
  exists resp, w0.
  assert (Hgen : ∀ ts acc w0,
    for_fold ts acc (run_one_test H mc codebase) w0 = (Raise e, w') →
    ∃ ts1 t ts2 rs w1, ts = ts1 ++ t :: ts2 ∧
      sandbox_runs H (updated_codebase mc codebase) w0 ts1 rs w1 ∧
      run H (tc_test_code t) (updated_codebase mc codebase) w1 = (Raise e, w')).
  { clear. induction ts as [|t ts IH]; intros acc w0 Hf; [done|].
    simpl in Hf. unfold run_one_test at 1, bind at 1 2 in Hf.
    destruct (run H (tc_test_code t) (updated_codebase mc codebase) w0)
      as [[r|e0] w1] eqn:Hrun.
    - simpl in Hf.
      assert (∃ acc', for_fold ts acc' (run_one_test H mc codebase) w1 = (Raise e, w'))
        as [acc' Hf'] by (destruct (success r); simpl in Hf; eauto).
      apply IH in Hf' as (ts1 & t' & ts2 & rs & w2 & -> & Hruns & Hr).
      exists (t :: ts1), t', ts2, (r :: rs), w2. split_and!; [done| |done].
      by eapply sandbox_runs_cons.
    - injection Hf as <- <-. exists [], t, ts, [], w0. split_and!; [done| |done].
      constructor. }
  destruct (Hgen _ _ _ Hrun) as (ts1 & t & ts2 & rs & w1 & ? & ? & ?).
  by exists ts1, t, ts2, rs, w1.
Qed.

Lemma for_fold_app {A B} (l1 l2 : list A) (acc : B) (body : B → A → M B) (w : World) :
  for_fold (l1 ++ l2) acc body w =
    bind (for_fold l1 acc body) (λ acc', for_fold l2 acc' body) w.
Proof.
  revert acc w. induction l1 as [|x l1 IH]; intros acc w; [done|].
  simpl. unfold bind. destruct (body acc x w) as [[acc'|e] w1]; [|done].
  by rewrite IH.
Qed.




(** On a host whose file system does not fail, the sandbox returns a
    result for each test whose code parses. *)
Lemma sandbox_runs_exist (H : Host) (cb : gmap string string) (ts : list TestCode) :
  (∀ n, ∃ d, mkdtemp H n = inr d) →
  (∀ n p, makedirs_error H n p = None) → (∀ n p, open_error H n p = None) →
  (∀ t, t ∈ ts → ∃ nodes, ast_parse_walk H (tc_test_code t) = inr nodes) →
  ∀ w, ∃ rs w', sandbox_runs H cb w ts rs w'.
Proof.
  intros Hd Hmk Hop. induction ts as [|t ts IH]; intros Hparse w.
  - exists [], w. constructor.
  - destruct (Hparse t) as [nodes Hn]; [by left|].
    destruct (run_returns H (tc_test_code t) cb w nodes Hd Hmk Hop Hn) as [r Hr].
    destruct (run H (tc_test_code t) cb w) as [o w1] eqn:Hrun. simpl in Hr. subst o.
    destruct (IH (λ t' Ht', Hparse t' (list_elem_of_further _ _ _ Ht')) w1) as (rs & w' & Hruns).
    exists (r :: rs), w'. by eapply sandbox_runs_cons.
Qed.

(** ** Test generation *)

Lemma generate_test_code_unfold (H : Host) (mc : GeneratedCode) (w : World) :
  generate_test_code H mc w =
    let w' := set_llm_log (llm_log w ++ [(test_prompt H mc, "")]) (tick w) in
    match llm_generate H (clock w) (test_prompt H mc) "" with
    | inl e => (Raise e, w')
    | inr response =>
        match parse_test_response H response with
        | Parsed r => (Ret r, w')
        | _ =>
            (Raise (default (Exn ValueError "") (structured_output_error H response)), w')
        end
    end.
Proof.
  unfold generate_test_code, bind, llm_call, structured_output_error.
  destruct (llm_generate _ _ _ _) as [e|response]; [done|]. simpl.
  by destruct (parse_test_response H response).
Qed.

(** C9: when the response to the test-generation request cannot be parsed
    into a [TestCodeResponse], [generate_test_code] raises, and the
    exception passes through [run_tests], through the repair loop and out
    of [modify_code]: no test outcome is produced, no sandbox run is made,
    and the request is not sent again (one entry is added to the log of
    requests, and the loop makes no further pass). *)
Theorem malformed_test_response_propagates (H : Host) (mc : GeneratedCode)
    (codebase : list CodeFile) (w : World) (response : string) :
  llm_generate H (clock w) (test_prompt H mc) "" = inr response →
  (∀ r, parse_test_response H response ≠ Parsed r) →
  ∃ e,
    let w' := set_llm_log (llm_log w ++ [(test_prompt H mc, "")]) (tick w) in
    structured_output_error H response = Some e ∧
    generate_test_code H mc w = (Raise e, w') ∧
    run_tests H mc codebase w = (Raise e, w') ∧
    (∀ task l fuel max,
       modified_code l = mc → iteration_count l < max →
       while_loop H (S fuel) max task codebase l w = (Raise e, w')) ∧
    (∀ task agent w_pre,
       bind (reflect ("Modifying code in files: " +:+ join_comma (t_file_paths task)))
         (λ _, generate_code H task agent) w_pre = (Ret mc, w) →
       modify_code H task agent codebase w_pre = (Raise e, w')) ∧
    children w' = children w ∧
    llm_log w' = llm_log w ++ [(test_prompt H mc, "")].
Proof.
  intros Hllm Hbad.
  assert (∃ e, structured_output_error H response = Some e) as [e Herr].
  { unfold structured_output_error.
    destruct (parse_test_response H response) as [|e|r] eqn:Hp; eauto.
    by destruct (Hbad r). }
  exists e. cbv zeta.
  assert (Hgen : generate_test_code H mc w =
            (Raise e, set_llm_log (llm_log w ++ [(test_prompt H mc, "")]) (tick w))).
  { rewrite generate_test_code_unfold. cbv zeta. rewrite Hllm.
    unfold structured_output_error in *.
    destruct (parse_test_response H response); simpl; congruence. }
  assert (Htests : run_tests H mc codebase w =
            (Raise e, set_llm_log (llm_log w ++ [(test_prompt H mc, "")]) (tick w))).
  { unfold run_tests. by rewrite (bind_Raise _ _ _ _ _ Hgen). }
  assert (Hloop : ∀ task l fuel max,
            modified_code l = mc → iteration_count l < max →
            while_loop H (S fuel) max task codebase l w =
              (Raise e, set_llm_log (llm_log w ++ [(test_prompt H mc, "")]) (tick w))).
  { intros task l fuel max Hmc Hlt. simpl.
    apply Nat.ltb_lt in Hlt. rewrite Hlt.
    apply bind_Raise. unfold loop_body. apply bind_Raise. by rewrite Hmc. }
  split_and!; try done.
  intros task agent w_pre Hpre. unfold modify_code, modify_code_with.
  unfold bind at 1. unfold bind at 1 in Hpre.
  destruct (reflect _ w_pre) as [[[]|e0] w1]; [|done].
  unfold bind at 1. rewrite Hpre. apply bind_Raise. by apply Hloop; [|simpl; lia].
Qed.

Lemma malformed_test_response_propagates_witness :
  ∃ w',
    modify_code Demo.host (Demo.task_for "do nothing") Demo.agent_dev Demo.base Demo.start =
      (Raise (Exn ValueError
                "Failed to parse LLM response as JSON. Raw response: I cannot help with that."),
       w') ∧
    children w' = [] ∧ length (llm_log w') = 2.
Proof.
  edestruct (malformed_test_response_propagates Demo.host Demo.code_v0 Demo.base
               (bind (reflect "Modifying code in files: f.py")
                  (λ _, generate_code Demo.host (Demo.task_for "do nothing") Demo.agent_dev)
                  Demo.start).2
               "I cannot help with that.")
    as (e & Herr & _ & _ & _ & Hmod & _).
  - vm_compute. reflexivity.
  - intros r. vm_compute. discriminate.
  - vm_compute in Herr. injection Herr as <-.
    eexists. split.
    + apply (Hmod (Demo.task_for "do nothing") Demo.agent_dev Demo.start).
      vm_compute. reflexivity.
    + vm_compute. split; reflexivity.
Defined.

(** ** The repair round *)







(** ** The repair loop *)

(** A pass through the loop body that does not raise binds both test
    lists; it breaks, leaving the counter and the code alone, when no test
    failed, and otherwise adds one to the counter. *)
Lemma loop_body_cases (H : Host) (task : Task) (codebase : list CodeFile)
    (l l' : Locals) (w w' : World) (c : control) :
  loop_body H task codebase l w = (Ret (c, l'), w') →
  ∃ u s,
    unsuccessful_tests l' = Some u ∧ successful_tests l' = Some s ∧
    match c with
    | Break =>
        u = [] ∧ iteration_count l' = iteration_count l ∧
        modified_code l' = modified_code l
    | Continue => u ≠ [] ∧ iteration_count l' = iteration_count l + 1
    end.
Proof.
  unfold loop_body, bind. intros Hbody.
  destruct (run_tests H (modified_code l) codebase w) as [[[u s]|e] w1]; [|done].
  destruct u as [|t u].
  - simpl in Hbody. injection Hbody as <- <- <-. by exists [], s.
  - simpl in Hbody.
    destruct (repair_all H task (modified_code l) (t :: u) _) as [[revised|e] w2]; [|done].
    injection Hbody as <- <- <-. by exists (t :: u), s.
Qed.

Lemma rounds_count (H : Host) (task : Task) (codebase : list CodeFile) (max n : nat)
    (l l' : Locals) (w w' : World) :
  rounds H task codebase max n l w l' w' →
  iteration_count l' = iteration_count l + n ∧
  (iteration_count l ≤ max → iteration_count l' ≤ max).
Proof.
  induction 1 as [l w | n l w l1 w1 l2 w2 Hlt Hbody _ [IH1 IH2]].
  - split; [lia | done].
  - apply loop_body_cases in Hbody as (u & s & _ & _ & _ & Hc).
    split; [lia | intros _; apply IH2; lia].
Qed.

Lemma rounds_bound_tests (H : Host) (task : Task) (codebase : list CodeFile) (max n : nat)
    (l l' : Locals) (w w' : World) :
  rounds H task codebase max n l w l' w' → 0 < n →
  ∃ u s, unsuccessful_tests l' = Some u ∧ successful_tests l' = Some s.
Proof.
  induction 1 as [l w | n l w l1 w1 l2 w2 Hlt Hbody Hrest IH]; intros Hn; [lia|].
  destruct n as [|n].
  - inversion Hrest; subst.
    apply loop_body_cases in Hbody as (u & s & Hu & Hs & _). by exists u, s.
  - apply IH. lia.
Qed.

(** With fuel for the passes that remain, the loop makes some repair
    rounds and then ends in one of the three ways of [loop_end]. *)
Lemma while_loop_cases (H : Host) (task : Task) (codebase : list CodeFile) (max : nat) :
  ∀ fuel l w,
    max - iteration_count l ≤ fuel →
    ∃ n l1 w1 o w',
      rounds H task codebase max n l w l1 w1 ∧
      loop_end H task codebase max l1 w1 o w' ∧
      while_loop H fuel max task codebase l w = (o, w').
Proof.
  induction fuel as [|fuel IH]; intros l w Hfuel.
  - exists 0, l, w, (Ret (Some l)), w. split_and!; [constructor | constructor; lia |].
    simpl. by rewrite (proj2 (Nat.ltb_ge _ _)) by lia.
  - simpl. destruct (Nat.ltb_spec (iteration_count l) max) as [Hlt|Hge].
    + destruct (loop_body H task codebase l w) as [[[c l']|e] w1] eqn:Hbody.
      * destruct c.
        -- pose proof (loop_body_cases _ _ _ _ _ _ _ _ Hbody) as (u & s & _ & _ & _ & Hc).
           destruct (IH l' w1) as (n & l1 & w2 & o & w' & Hr & He & Hw); [lia|].
           exists (S n), l1, w2, o, w'. split_and!; [by eapply rounds_S | done |].
           by rewrite (bind_Ret _ _ _ _ _ Hbody).
        -- exists 0, l, w, (Ret (Some l')), w1.
           split_and!; [constructor | by eapply end_break |].
           by rewrite (bind_Ret _ _ _ _ _ Hbody).
      * exists 0, l, w, (Raise e), w1.
        split_and!; [constructor | by eapply end_raise |].
        by rewrite (bind_Raise _ _ _ _ _ Hbody).
    + exists 0, l, w, (Ret (Some l)), w. by split_and!; [constructor | constructor |].
Qed.

Lemma loop_end_not_None (H : Host) (task : Task) (codebase : list CodeFile) (max : nat)
    (l1 : Locals) (w1 w' : World) (o : outcome (option Locals)) :
  loop_end H task codebase max l1 w1 o w' → o ≠ Ret None.
Proof. by destruct 1. Qed.

Lemma finish_bound (max : nat) (task : Task) (l : Locals) (w : World)
    (u s : list TestResult) :
  unsuccessful_tests l = Some u → successful_tests l = Some s →
  ∃ r w', finish max task l w = (Ret r, w') ∧
          task_success r = (length u =? 0) ∧
          modified_files r = files_of_changes (modified_code l) ∧
          test_results r = Some (s ++ u).
Proof.
  intros Hu Hs. unfold finish, bind. rewrite Hu, Hs.
  destruct (iteration_count l =? max); simpl; eexists _, _; by split_and!.
Qed.

(** C6, as the code has it: started with the counter at zero and a cap
    [max], the loop always ends, after at most [max] repair rounds, and
    the counter stays between zero and the cap in every state it passes
    through.  It ends because the guard is false or because no test
    failed (the state the specification calls Done), unless a pass through
    the body raises (test generation, a sandbox run or a repair request
    raised): that exception then leaves the loop and [modify_code].
    [modify_code] itself, whose cap is 3, never fails to come back, and
    once code was generated and the loop has ended without an exception
    it returns a [TaskResult]. *)
Theorem repair_loop_bounded (H : Host) (max : nat) (task : Task)
    (codebase : list CodeFile) (l : Locals) (w : World) :
  iteration_count l = 0 →
  (∀ k l' w', rounds H task codebase max k l w l' w' →
              iteration_count l' = k ∧ 0 ≤ iteration_count l' ≤ max) ∧
  (∃ n l1 w1 o w',
     rounds H task codebase max n l w l1 w1 ∧ n ≤ max ∧
     loop_end H task codebase max l1 w1 o w' ∧
     while_loop H max max task codebase l w = (o, w') ∧
     o ≠ Ret None) ∧
  (∀ agent w0, (modify_code_with H max task agent codebase w0).1 ≠ Ret None) ∧
  (∀ agent w0, (modify_code H task agent codebase w0).1 ≠ Ret None) ∧
  (∀ agent w0 l2 w2,
     0 < max →
     bind (reflect ("Modifying code in files: " +:+ join_comma (t_file_paths task)))
       (λ _, generate_code H task agent) w0 = (Ret (modified_code l), w) →
     unsuccessful_tests l = None → successful_tests l = None →
     while_loop H max max task codebase l w = (Ret (Some l2), w2) →
     ∃ r w3 u,
       modify_code_with H max task agent codebase w0 = (Ret (Some r), w3) ∧
       unsuccessful_tests l2 = Some u ∧
       (u = [] ∨ iteration_count l2 = max) ∧
       task_success r = (length u =? 0) ∧
       modified_files r = files_of_changes (modified_code l2)).
Proof.
  intros Hzero.
  assert (Hterm : ∀ m agent w0, (modify_code_with H m task agent codebase w0).1 ≠ Ret None).
  { intros m agent w0. unfold modify_code_with, bind.
    destruct (reflect _ w0) as [[[]|e] wa]; [|done].
    destruct (generate_code H task agent wa) as [[generated|e] wb]; [|done].
    set (l0 := {| modified_code := generated |}).
    destruct (while_loop_cases H task codebase m m l0 wb) as
      (n & l1 & w1 & o & w' & _ & Hend & Hw); [simpl; lia|].
    rewrite Hw. destruct Hend; simpl; try done.
    - by destruct (finish m task l1 w1) as [[r|e] w2].
    - by destruct (finish m task l2 w2) as [[r|e] w3]. }
  split_and!.
  - intros k l' w' Hr. apply rounds_count in Hr as [Hc Hb]. lia.
  - destruct (while_loop_cases H task codebase max max l w) as
      (n & l1 & w1 & o & w' & Hr & Hend & Hw); [lia|].
    exists n, l1, w1, o, w'. split_and!; try done.
    + apply rounds_count in Hr as [Hc Hb]. lia.
    + by eapply loop_end_not_None.
  - apply Hterm.
  - intros agent w0. apply (Hterm 3 agent w0).
  - intros agent w0 l2 w2 Hmax Hpre Hu Hs Hloop.
    destruct (while_loop_cases H task codebase max max l w) as
      (n & l1 & w1 & o & w' & Hr & Hend & Hw); [lia|].
    rewrite Hloop in Hw. injection Hw as <- <-.
    assert (∃ u s, unsuccessful_tests l2 = Some u ∧ successful_tests l2 = Some s ∧
                   (u = [] ∨ iteration_count l2 = max)) as (u & s & Hu2 & Hs2 & Hdone).
    { pose proof (rounds_count _ _ _ _ _ _ _ _ _ Hr) as [Hc Hb].
      inversion Hend as [Hge | l2' w2' Hlt Hbody | ]; subst.
      - destruct (rounds_bound_tests _ _ _ _ _ _ _ _ _ Hr) as (u & s & ? & ?); [lia|].
        exists u, s. split_and!; [done | done | right; lia].
      - apply loop_body_cases in Hbody as (u & s & ? & ? & -> & _).
        exists [], s. split_and!; [done | done | by left]. }
    destruct (finish_bound max task l2 w2 u s Hu2 Hs2) as (r & w3 & Hfin & Hsucc & Hfiles & _).
    exists r, w3, u. split_and!; try done.
    unfold modify_code_with. unfold bind at 1. unfold bind at 1 in Hpre.
    destruct (reflect _ w0) as [[[]|e] wa]; [|done].
    unfold bind at 1. rewrite Hpre.
    replace {| modified_code := modified_code l; iteration_count := 0;
               unsuccessful_tests := None; successful_tests := None |} with l
      by (destruct l; simpl in *; congruence).
    rewrite (bind_Ret _ _ _ _ _ Hloop). by rewrite (bind_Ret _ _ _ _ _ Hfin).
Qed.

(** C6 as stated fails: when the response to the test-generation request
    is not JSON, [modify_code] ends with the [ValueError] that
    [generate_test_code] raises, not with a result. *)
Lemma repair_loop_not_always_done :
  ¬ (∀ (H : Host) task agent codebase w,
       ∃ r w', modify_code H task agent codebase w = (Ret (Some r), w')).
Proof.
  intros Hall.
  destruct (Hall Demo.host (Demo.task_for "do nothing") Demo.agent_dev Demo.base Demo.start)
    as (r & w' & Hrun).
  vm_compute in Hrun. discriminate Hrun.
Qed.

Lemma repair_loop_bounded_witness :
  ∃ n l1 w1 o w',
    rounds Demo.host (Demo.task_for "make f return 4") Demo.base 3 n
      {| modified_code := Demo.code_v1; iteration_count := 0;
         unsuccessful_tests := None; successful_tests := None |} Demo.start l1 w1 ∧
    n ≤ 3 ∧
    while_loop Demo.host 3 3 (Demo.task_for "make f return 4") Demo.base
      {| modified_code := Demo.code_v1; iteration_count := 0;
         unsuccessful_tests := None; successful_tests := None |} Demo.start = (o, w') ∧
    o ≠ Ret None.
Proof.
  edestruct (repair_loop_bounded Demo.host 3 (Demo.task_for "make f return 4") Demo.base
               {| modified_code := Demo.code_v1; iteration_count := 0;
                  unsuccessful_tests := None; successful_tests := None |} Demo.start)
    as (_ & (n & l1 & w1 & o & w' & Hr & Hn & _ & Hw & Ho) & _).
  - reflexivity.
  - exists n, l1, w1, o, w'. exact (conj Hr (conj Hn (conj Hw Ho))).
Defined.

(** One failing round, then a repair that fixes it. *)
Example modify_code_repairs_once :
  ∃ r w',
    modify_code Demo.host (Demo.task_for "make f return 4") Demo.agent_dev Demo.base
      Demo.start = (Ret (Some r), w') ∧
    task_success r = true ∧
    task_output r = "Code modification complete" ∧
    modified_files r = files_of_changes Demo.code_v2 ∧
    length (llm_log w') = 5 ∧
    thought_process w' =
      ["Modifying code in files: f.py";
       "Iteration 1: 2 tests failed. Attempting to fix...";
       "All tests passed successfully."].
Proof. eexists _, _. split; [vm_compute; reflexivity|]. vm_compute. by split_and!. Qed.

(** A test that fails in every round. *)
Example modify_code_exhausts_cap :
  ∃ r w',
    modify_code Demo.host (Demo.task_for "stubborn") Demo.agent_dev Demo.base
      Demo.start = (Ret (Some r), w') ∧
    task_success r = false ∧
    task_output r = "Some tests are still failing" ∧
    modified_files r = files_of_changes Demo.code_v3 ∧
    last (thought_process w') =
      Some "Maximum iterations reached. Some tests are still failing.".
Proof. eexists _, _. split; [vm_compute; reflexivity|]. vm_compute. by split_and!. Qed.

(** With the cap at zero the loop body never runs, and the code after the
    loop reads [unsuccessful_tests] before anything was assigned to it.
    The cap of [modify_code] is 3, so this cannot happen there. *)
Example modify_code_with_cap_zero :
  (modify_code_with Demo.host 0 (Demo.task_for "make f return 4") Demo.agent_dev
     Demo.base Demo.start).1 =
    Raise (Exn UnboundLocalError
             "cannot access local variable 'unsuccessful_tests' where it is not associated with a value").
Proof. vm_compute. reflexivity. Qed.

(** * Further properties *)

(** ** The import analyzer *)

Lemma first_segment_no_dot (s : string) : has_dot (first_segment s) = false.
Proof.
  induction s as [|c s IH]; [done|]. simpl.
  destruct (Ascii.eqb c ".") eqn:Hc; [done|]. simpl. by rewrite Hc.
Qed.

Lemma first_segment_prefix (s : string) :
  ∃ rest, s = first_segment s +:+ rest ∧ (rest = "" ∨ startswith "." rest = true).
Proof.
  induction s as [|c s (rest & Heq & Hrest)].
  - exists "". by split; [|left].
  - change (first_segment (String c s))
      with (if Ascii.eqb c "." then EmptyString else String c (first_segment s)).
    destruct (Ascii.eqb_spec c ".") as [->|Hc].
    + exists (String "." s). by split; [|right].
    + exists rest. split; [|done]. change (String c s = String c (first_segment s +:+ rest)).
      by f_equal.
Qed.

Lemma imports_of_node_spec (node : ast_node) (name : string) :
  name ∈ imports_of_node node ↔
    ∃ full, name = first_segment full ∧
            ((∃ names, node = Import names ∧ full ∈ names) ∨
             (node = ImportFrom (Some full) ∧ full ≠ "")).
Proof.
  destruct node as [names|[module|]|]; simpl.
  - rewrite list_elem_of_In, in_map_iff. split.
    + intros (full & <- & Hin%list_elem_of_In). exists full. split; [done|]. left.
      by exists names.
    + intros (full & -> & [(names' & [= <-] & Hin%list_elem_of_In) | [[=] _]]).
      by exists full.
  - destruct (String.eqb_spec module "") as [->|Hne].
    + split; [by intros ?%elem_of_nil|].
      intros (full & _ & [(names & [=] & _) | [[= <-] Hne]]). done.
    + rewrite list_elem_of_singleton. split.
      * intros ->. exists module. split; [done|]. by right.
      * intros (full & -> & [(names & [=] & _) | [[= <-] _]]). done.
  - split; [by intros ?%elem_of_nil|].
    intros (full & _ & [(names & [=] & _) | [[=] _]]).
  - split; [by intros ?%elem_of_nil|].
    intros (full & _ & [(names & [=] & _) | [[=] _]]).
Qed.

(** X1: [analyze_imports] leaves the world as it is and raises exactly
    what [ast.parse] raises.  Otherwise it returns top-level module names:
    a name is in the list iff it is the part before the first dot of some
    imported dotted name, so no returned name holds a dot, and a snippet
    that imports nothing (or only does relative [from . import x]) gives
    the empty list. *)
Theorem analyze_imports_names (H : Host) (code : string) (w : World) :
  match ast_parse_walk H code with
  | inl e => analyze_imports H code w = (Raise e, w)
  | inr nodes =>
      ∃ names,
        analyze_imports H code w = (Ret names, w) ∧
        (∀ name, name ∈ names ↔ ∃ full, imported full nodes ∧ name = first_segment full) ∧
        Forall (λ name, has_dot name = false) names ∧
        Forall (λ name, ∃ full rest,
                  imported full nodes ∧ full = name +:+ rest ∧
                  (rest = "" ∨ startswith "." rest = true)) names ∧
        ((∀ full, ¬ imported full nodes) → names = [])
  end.
Proof.
  unfold analyze_imports, bind. destruct (ast_parse_walk H code) as [e|nodes]; [done|].
  simpl. exists (flat_map imports_of_node nodes).
  assert (Hiff : ∀ name, name ∈ flat_map imports_of_node nodes ↔
                   ∃ full, imported full nodes ∧ name = first_segment full).
  { intros name. rewrite list_elem_of_In, in_flat_map. unfold imported. split.
    - intros (node & Hnode & Hin). apply list_elem_of_In in Hnode, Hin.
      apply imports_of_node_spec in Hin as (full & -> & [(names & -> & Hf) | [-> Hne]]).
      + exists full. split; [|done]. left. by exists names.
      + exists full. split; [|done]. by right.
    - intros (full & [(names & Hnode & Hf) | [Hnode Hne]] & ->).
      + exists (Import names). rewrite <- !list_elem_of_In. split; [done|].
        apply imports_of_node_spec. exists full. split; [done|]. left. by exists names.
      + exists (ImportFrom (Some full)). rewrite <- !list_elem_of_In. split; [done|].
        apply imports_of_node_spec. exists full. split; [done|]. by right. }
  split_and!; [done | done | | |].
  - apply Forall_forall. intros name (full & _ & ->)%Hiff. apply first_segment_no_dot.
  - apply Forall_forall. intros name (full & Himp & ->)%Hiff.
    destruct (first_segment_prefix full) as (rest & Heq & Hrest). by exists full, rest.
  - intros Hnone. destruct (flat_map imports_of_node nodes) as [|name names] eqn:E; [done|].
    destruct (proj1 (Hiff name)) as (full & Himp & _); [by left|].
    by destruct (Hnone full).
Qed.

(** ** The dependency classifier, again *)

(** X2: a module that is external for a code base is external for every
    smaller code base: adding files can only turn an external module into
    a local one.  The empty name is a substring of every path, so it is
    external only for the empty code base. *)
Theorem is_external_module_antitone (H : Host) (module_name : string)
    (codebase codebase' : gmap string string) :
  codebase ⊆ codebase' →
  is_external_module H module_name codebase' = true →
  is_external_module H module_name codebase = true ∧
  (codebase ≠ ∅ → is_external_module H "" codebase = false).
Proof.
  intros Hsub Hext. unfold is_external_module in *. split.
  - destruct (bool_decide (module_name ∈ stdlib_modules H)); [done|].
    destruct (existsb _ (map_to_list codebase).*1) eqn:He; [|done].
    apply path_match_spec in He as (file_path & pre & post & Hdom & Heq).
    assert (Hin : existsb (λ file_path, str_in module_name file_path)
                    (map_to_list codebase').*1 = true).
    { apply path_match_spec. exists file_path, pre, post. split; [|done].
      by apply (subseteq_dom codebase codebase'). }
    by rewrite Hin in Hext.
  - intros Hne. destruct (bool_decide ("" ∈ stdlib_modules H)); [done|].
    destruct (existsb _ (map_to_list codebase).*1) eqn:He; [done|]. exfalso.
    apply map_choose in Hne as (file_path & content & Hlook).
    assert (Hin : existsb (λ file_path, str_in "" file_path)
                    (map_to_list codebase).*1 = true).
    { apply path_match_spec. exists file_path, "", file_path. split; [|done].
      apply elem_of_dom. by exists content. }
    congruence.
Qed.

Lemma is_external_module_antitone_witness :
  is_external_module Demo.host "numpy_like_fake_pkg" ∅ = true ∧
  is_external_module Demo.host "" {[ "f.py" := "pass" ]} = false.
Proof.
  split.
  - apply (is_external_module_antitone Demo.host "numpy_like_fake_pkg" ∅
             {[ "f.py" := "pass" ]}); [apply map_empty_subseteq | vm_compute; reflexivity].
  - apply (is_external_module_antitone Demo.host "numpy_like_fake_pkg"
             {[ "f.py" := "pass" ]} {[ "f.py" := "pass" ]});
      [done | vm_compute; reflexivity | ].
    intros Hempty. apply (f_equal (λ m : gmap string string, m !! "f.py")) in Hempty.
    vm_compute in Hempty. discriminate.
Defined.

(** ** Installing and removing the stand-ins *)

Lemma lookup_foldl_insert_ne (l : list (string * MockModule)) (sm : gmap string PyModule)
    (name : string) :
  name ∉ l.*1 →
  foldl (λ sm kv, <[kv.1 := StandIn kv.2]> sm) sm l !! name = sm !! name.
Proof.
  revert sm. induction l as [|[k m] l IH]; intros sm Hout; [done|].
  simpl in *. rewrite IH by set_solver. apply lookup_insert_ne. set_solver.
Qed.

Lemma lookup_foldl_insert_find (l : list (string * MockModule)) (sm : gmap string PyModule)
    (name : string) :
  NoDup l.*1 →
  foldl (λ sm kv, <[kv.1 := StandIn kv.2]> sm) sm l !! name =
    match list_find (λ kv, kv.1 = name) l with
    | Some r => Some (StandIn r.2.2)
    | None => sm !! name
    end.
Proof.
  revert sm. induction l as [|[k m] l IH]; intros sm Hnd; [done|].
  simpl in *. apply NoDup_cons in Hnd as [Hk Hnd].
  case_decide as Hk'; simpl in Hk'.
  - subst k. simpl. rewrite lookup_foldl_insert_ne by done. apply lookup_insert_eq.
  - rewrite IH by done.
    destruct (list_find _ l) as [[i kv]|]; simpl; [done|]. by apply lookup_insert_ne.
Qed.

(** X3: after [patch_modules], a name resolves to its stand-in when the
    cache has one and to whatever [sys.modules] held before otherwise
    (for a cache that holds no name twice). *)
Theorem patched_lookup (w : World) (name : string) :
  NoDup (mocked_names w) →
  sys_modules (patched w) !! name =
    match mocked_get name w with
    | Some m => Some (StandIn m)
    | None => sys_modules w !! name
    end.
Proof.
  intros Hnd. unfold patched, mocked_get. simpl.
  rewrite lookup_foldl_insert_find by done.
  by destruct (list_find _ (mocked_modules w)).
Qed.

(** X4: [patch_modules] followed by [unpatch_modules] removes every cached
    name from [sys.modules] and leaves every other name as it was.  A
    module that was loaded under a cached name before is not put back. *)
Theorem unpatch_patch (w : World) (name : string) :
  sys_modules (unpatched (patched w)) !! name =
    (if decide (name ∈ mocked_names w) then None else sys_modules w !! name) ∧
  mocked_modules (unpatched (patched w)) = mocked_modules w.
Proof.
  split; [|done]. unfold unpatched, patched, mocked_names. simpl.
  rewrite lookup_foldl_delete. case_decide as Hin; [done|].
  by apply lookup_foldl_insert_ne.
Qed.

(** X5: when [run] returns a result, [sys.modules] has lost every name
    that is in the cache, whether or not the snippet imports it and
    whether or not a real module was loaded under it, and holds every
    other name as before; when [run] raises, [sys.modules] is untouched. *)
Theorem run_sys_modules (H : Host) (code : string) (codebase : gmap string string)
    (w : World) :
  match (run H code codebase w).1 with
  | Ret _ =>
      ∀ name, sys_modules (run H code codebase w).2 !! name =
                if decide (name ∈ mocked_names (run H code codebase w).2)
                then None else sys_modules w !! name
  | Raise _ => sys_modules (run H code codebase w).2 = sys_modules w
  end.
Proof.
  pose proof (run_cases H code codebase w) as Hc.
  destruct (mkdtemp H (clock w)) as [e|d]; [by rewrite Hc|].
  cbv zeta in Hc. destruct Hc as [Hfs Hc].
  set (w1 := (prepare H code codebase d (entered d w)).2) in *.
  assert (Hsm : sys_modules w1 = sys_modules w) by apply Hfs.
  destruct (prepare H code codebase d (entered d w)).1 as [[]|e]; [|by rewrite Hc].
  destruct (ast_parse_walk H code) as [e|nodes]; [by rewrite Hc|].
  destruct Hc as (added & r & Hr & _). rewrite Hr. simpl. intros name.
  unfold mocked_names. simpl. rewrite lookup_foldl_delete.
  case_decide as Hin; [done|]. rewrite lookup_foldl_insert_ne by done. by rewrite Hsm.
Qed.

Lemma patched_lookup_witness :
  sys_modules
    (patched (mock_external_modules Demo.host Demo.snippet_twice ∅ Demo.start).2)
    !! "fake_a" = Some (StandIn (mock_of "fake_a" 0)).
Proof.
  rewrite patched_lookup.
  - vm_compute. reflexivity.
  - vm_compute. apply NoDup_singleton.
Defined.

(** ** The cache across calls *)

Lemma cache_ids_app (l1 l2 : list (string * MockModule)) :
  cache_ids (l1 ++ l2) = cache_ids l1 ++ cache_ids l2.
Proof. unfold cache_ids. apply flat_map_app. Qed.

Lemma cache_ids_added (added : list (string * MockModule)) :
  ∀ n, (∀ k name m, added !! k = Some (name, m) → m = mock_of name (n + 3 * k)) →
       cache_ids added = seq n (3 * length added).
Proof.
  induction added as [|[name m] added IH]; intros n Hids; [done|].
  replace (3 * length ((name, m) :: added)) with (S (S (S (3 * length added))))
    by (simpl; lia).
  rewrite (Hids 0 name m eq_refl). simpl.
  replace (n + 0) with n by lia. do 3 f_equal; [lia | lia |].
  change (length added + (length added + (length added + 0))) with (3 * length added).
  apply IH.
  intros k name' m' Hk. rewrite (Hids (S k) name' m' Hk). f_equal. lia.
Qed.

(** X6: [run] keeps the cache well formed on every path: no name is
    cached twice, every stand-in carries the name it is cached under, and
    the objects in the cache (stand-ins, loaders, specs) are pairwise
    distinct.  The cache only grows: what it held before the call is a
    prefix of what it holds after, so a name keeps the stand-in it was
    first given for as long as the executor lives. *)
Theorem run_keeps_cache_wf (H : Host) (code : string) (codebase : gmap string string)
    (w : World) :
  cache_wf w →
  cache_wf (run H code codebase w).2 ∧
  mocked_modules w `prefix_of` mocked_modules (run H code codebase w).2 ∧
  next_id w ≤ next_id (run H code codebase w).2.
Proof.
  intros (Hnd & Hnames & Hids & Hlt).
  pose proof (run_cases H code codebase w) as Hc.
  destruct (mkdtemp H (clock w)) as [e|d].
  { rewrite Hc. simpl. by split_and!. }
  cbv zeta in Hc. destruct Hc as [Hfs Hc].
  set (w1 := (prepare H code codebase d (entered d w)).2) in *.
  destruct Hfs as (_ & Hmm & Hid & _).
  assert (Hearly : ∀ e, run H code codebase w = (Raise e, remove_tree H d w1) →
            cache_wf (run H code codebase w).2 ∧
            mocked_modules w `prefix_of` mocked_modules (run H code codebase w).2 ∧
            next_id w ≤ next_id (run H code codebase w).2).
  { intros e ->. unfold cache_wf, mocked_names. simpl. rewrite Hmm, Hid.
    by split_and!. }
  destruct (prepare H code codebase d (entered d w)).1 as [[]|e]; [|by apply (Hearly e)].
  destruct (ast_parse_walk H code) as [e|nodes]; [by apply (Hearly e)|].
  destruct Hc as (added & r & Hr & _ & _ & Hadd & Hiff & Hmock). rewrite Hr.
  unfold cache_wf, mocked_names in *. simpl. rewrite Hmm, Hid.
  pose proof (cache_ids_added added (next_id w) Hmock) as Hseq.
  split_and!.
  - rewrite fmap_app. apply NoDup_app. split_and!; [done | | done].
    intros name Hold Hnew. by apply Hiff in Hnew as (_ & _ & Hnew).
  - apply Forall_app. split; [done|]. apply Forall_lookup. intros k [name m] Hk.
    by rewrite (Hmock k name m Hk).
  - rewrite cache_ids_app, Hseq. apply NoDup_app. split_and!; [done | | apply NoDup_seq].
    intros i Hold Hnew%elem_of_seq. rewrite Forall_forall in Hlt.
    apply Hlt in Hold. lia.
  - rewrite cache_ids_app, Hseq. apply Forall_app. split.
    + eapply Forall_impl; [done|]. simpl. intros; lia.
    + apply Forall_forall. intros i Hi%elem_of_seq. lia.
  - by exists added.
  - lia.
Qed.

Lemma run_keeps_cache_wf_witness :
  cache_wf (run Demo.host Demo.snippet_twice ∅ Demo.start).2 ∧
  mocked_names (run Demo.host Demo.snippet_twice ∅ Demo.start).2 = ["fake_a"].
Proof.
  split; [|vm_compute; reflexivity].
  apply (run_keeps_cache_wf Demo.host Demo.snippet_twice ∅ Demo.start).
  unfold cache_wf. simpl. split_and!; constructor.
Defined.

(** ** What the sandbox leaves alone *)





(** The condition is needed: [os.path.join] returns an absolute second
    component as it is, so a code base with an absolute path makes [run]
    write over the file of that name. *)
Example run_writes_absolute_path :
  files (run posix_host Demo.snippet_print {[ "/home/user/notes.txt" := "x = 1" ]}
           (set_files {[ "/home/user/notes.txt" := "keep" ]} Demo.start)).2
    !! "/home/user/notes.txt" = Some "x = 1".
Proof. vm_compute. reflexivity. Qed.

(** ** When the sandbox raises *)

(** X8: [run] raises in exactly three situations, and then raises that
    very exception: the temporary directory cannot be made; a file of the
    code base or the entry point cannot be written; or [ast.parse] rejects
    the snippet.  Nothing that goes wrong when the child process is
    started or run is ever raised. *)
Theorem run_raises_iff (H : Host) (code : string) (codebase : gmap string string)
    (w : World) (e : exn) :
  (run H code codebase w).1 = Raise e ↔
    mkdtemp H (clock w) = inl e ∨
    ∃ d, mkdtemp H (clock w) = inr d ∧
         ((prepare H code codebase d (entered d w)).1 = Raise e ∨
          ((prepare H code codebase d (entered d w)).1 = Ret tt ∧
           ast_parse_walk H code = inl e)).
Proof.
  pose proof (run_cases H code codebase w) as Hc.
  destruct (mkdtemp H (clock w)) as [e0|d].
  - rewrite Hc. simpl. split.
    + intros [= ->]. by left.
    + intros [[= ->] | (d & [=] & _)]. done.
  - cbv zeta in Hc. destruct Hc as [_ Hc].
    destruct (prepare H code codebase d (entered d w)).1 as [[]|e0] eqn:Hp.
    + destruct (ast_parse_walk H code) as [e0|nodes] eqn:Ha.
      * rewrite Hc. simpl. split.
        -- intros [= ->]. right. exists d. split; [done|]. right. by rewrite Hp.
        -- intros [[=] | (d' & [= <-] & [Hp' | [_ [= ->]]])]; [|done].
           rewrite Hp in Hp'. done.
      * destruct Hc as (added & r & Hr & _). rewrite Hr. simpl. split; [done|].
        intros [[=] | (d' & [= <-] & [Hp' | [_ [=]]])]. rewrite Hp in Hp'. done.
    + rewrite Hc. simpl. split.
      * intros [= ->]. right. exists d. split; [done|]. left. by rewrite Hp.
      * intros [[=] | (d' & [= <-] & [Hp' | [Hp' _]])]; rewrite Hp in Hp'; congruence.
Qed.

(** ** The code base the tests run against *)

Lemma foldl_insert_last {A V} (key : A → string) (value : A → V) (l : list A)
    (m0 : gmap string V) (k : string) :
  foldl (λ m x, <[key x := value x]> m) m0 l !! k =
    match last (filter (λ x, key x = k) l) with
    | Some x => Some (value x)
    | None => m0 !! k
    end.
Proof.
  induction l as [|x l IH] using rev_ind; [done|].
  rewrite foldl_app, filter_app. simpl. rewrite filter_cons, filter_nil.
  case_decide as Hk.
  - rewrite last_snoc. subst k. apply lookup_insert_eq.
  - rewrite app_nil_r, lookup_insert_ne by done. apply IH.
Qed.

(** X9: in the code base a test runs against, a path holds the code of the
    last change made to that path; a path no change touches holds the
    content of the last file of the base code with that path; any other
    path is absent. *)
Theorem updated_codebase_lookup (mc : GeneratedCode) (codebase : list CodeFile)
    (path : string) :
  updated_codebase mc codebase !! path =
    match last (filter (λ c, cc_path c = path) (code_changes mc)) with
    | Some c => Some (cc_code c)
    | None => cf_content <$> last (filter (λ f, cf_path f = path) codebase)
    end.
Proof.
  unfold updated_codebase. rewrite (foldl_insert_last cc_path cc_code).
  destruct (last (filter _ (code_changes mc))); [done|].
  rewrite (foldl_insert_last cf_path cf_content), lookup_empty.
  by destruct (last (filter _ codebase)).
Qed.

(** X10: the code base a test runs against is the [modified_files] map
    that [modify_code] reports for the same code, laid over the base code:
    every file reported as modified is in the sandbox with the reported
    content, and the files of the base code show through everywhere
    else. *)
Theorem updated_codebase_overlay (mc : GeneratedCode) (codebase : list CodeFile) :
  updated_codebase mc codebase = files_of_changes mc ∪ base_dict codebase ∧
  files_of_changes mc ⊆ updated_codebase mc codebase ∧
  dom (updated_codebase mc codebase) =
    list_to_set (cc_path <$> code_changes mc) ∪ list_to_set (cf_path <$> codebase).
Proof.
  assert (Heq : updated_codebase mc codebase = files_of_changes mc ∪ base_dict codebase).
  { apply map_eq. intros path. rewrite lookup_union.
    unfold updated_codebase, files_of_changes, base_dict.
    rewrite !(foldl_insert_last cc_path cc_code), !(foldl_insert_last cf_path cf_content).
    rewrite !lookup_empty.
    destruct (last (filter _ (code_changes mc))); simpl.
    - by destruct (last (filter _ codebase)).
    - by destruct (last (filter _ codebase)). }
  assert (Hdom : ∀ {A} (key value : A → string) (l : list A),
            dom (foldl (λ m x, <[key x := value x]> m) (∅ : gmap string string) l) =
            list_to_set (key <$> l)).
  { intros A key value l. induction l as [|x l IH] using rev_ind; [set_solver|].
    rewrite foldl_app, fmap_app. simpl. rewrite dom_insert_L, IH, list_to_set_app_L.
    set_solver. }
  split_and!; [done | rewrite Heq; apply map_union_subseteq_l |].
  rewrite Heq, dom_union_L. unfold files_of_changes, base_dict.
  by rewrite (Hdom _ cc_path cc_code), (Hdom _ cf_path cf_content).
Qed.

(** ** When [run_tests] raises *)

(** X11: [run_tests] raises exactly when test generation raises, or when
    the sandbox raises for some test after returning results for the tests
    before it; it raises that same exception, and the outcomes of the
    tests already run are lost with it. *)
Theorem run_tests_raises_iff (H : Host) (mc : GeneratedCode) (codebase : list CodeFile)
    (w w' : World) (e : exn) :
  run_tests H mc codebase w = (Raise e, w') ↔
    generate_test_code H mc w = (Raise e, w') ∨
    ∃ resp w0 ts1 t ts2 rs w1,
      generate_test_code H mc w = (Ret resp, w0) ∧
      tests resp = ts1 ++ t :: ts2 ∧
      sandbox_runs H (updated_codebase mc codebase) w0 ts1 rs w1 ∧
      run H (tc_test_code t) (updated_codebase mc codebase) w1 = (Raise e, w').
Proof.
  split; [apply run_tests_raises_inv|].
  intros [Hgen | (resp & w0 & ts1 & t & ts2 & rs & w1 & Hgen & Hts & Hruns & Hrun)].
  - unfold run_tests. by apply bind_Raise.
  - unfold run_tests. rewrite (bind_Ret _ _ _ _ _ Hgen), Hts, for_fold_app.
    rewrite (bind_Ret _ _ _ _ _ (run_one_test_fold _ _ _ _ _ _ _ Hruns [] [])).
    simpl. apply bind_Raise. unfold run_one_test. by apply bind_Raise.
Qed.

(** ** [modify_code], step by step *)

Lemma modify_code_eq (H : Host) (task : Task) (agent : Agent) (codebase : list CodeFile)
    (w0 : World) :
  modify_code H task agent codebase w0 =
    match generate_code H task agent
            (set_thought_process (thought_process w0 ++ [opening_thought task]) w0) with
    | (Raise e, w2) => (Raise e, w2)
    | (Ret generated, w2) =>
        match while_loop H 3 3 task codebase
                {| modified_code := generated; iteration_count := 0;
                   unsuccessful_tests := None; successful_tests := None |} w2 with
        | (Raise e, w3) => (Raise e, w3)
        | (Ret None, w3) => (Ret None, w3)
        | (Ret (Some l), w3) =>
            match finish 3 task l w3 with
            | (Ret r, w4) => (Ret (Some r), w4)
            | (Raise e, w4) => (Raise e, w4)
            end
        end
    end.
Proof.
  unfold modify_code, modify_code_with, bind, reflect, modify_world, opening_thought.
  set (w1 := set_thought_process _ w0).
  destruct (generate_code H task agent w1) as [[generated|e] w2]; [|done].
  set (l0 := {| modified_code := generated |}).
  destruct (while_loop H 3 3 task codebase l0 w2) as [[[l|]|e] w3]; try done.
Qed.

(** X12: when the model answers the request for tests with an empty list,
    [run_tests] returns two empty lists without running anything, and
    [modify_code] reports success at once: no repair is requested, the
    modified files are those of the generated code, and the list of test
    results is empty. *)
Theorem no_tests_is_success (H : Host) (task : Task) (agent : Agent)
    (codebase : list CodeFile) (w0 w wt : World) (generated : GeneratedCode)
    (resp : TestCodeResponse) :
  generate_code H task agent
    (set_thought_process (thought_process w0 ++ [opening_thought task]) w0) =
    (Ret generated, w) →
  generate_test_code H generated w = (Ret resp, wt) →
  tests resp = [] →
  run_tests H generated codebase w = (Ret ([], []), wt) ∧
  ∃ r,
    modify_code H task agent codebase w0 =
      (Ret (Some r),
       set_thought_process (thought_process wt ++ ["All tests passed successfully."]) wt) ∧
    task_success r = true ∧
    task_output r = "Code modification complete" ∧
    modified_files r = files_of_changes generated ∧
    test_results r = Some [].
Proof.
  intros Hgen Htests Hnil.
  assert (Hrun : run_tests H generated codebase w = (Ret ([], []), wt)).
  { unfold run_tests. rewrite (bind_Ret _ _ _ _ _ Htests), Hnil. done. }
  split; [done|].
  rewrite modify_code_eq, Hgen. simpl.
  unfold loop_body at 1. unfold bind at 1 2. simpl. rewrite Hrun. simpl.
  eexists. split; [reflexivity|]. by split_and!.
Qed.

Lemma no_tests_is_success_witness :
  ∃ r w',
    modify_code (demo_host_with Demo.model no_tests) (Demo.task_for "make f return 4")
      Demo.agent_dev Demo.base Demo.start = (Ret (Some r), w') ∧
    task_success r = true ∧ test_results r = Some [] ∧ children w' = [].
Proof.
  edestruct (no_tests_is_success (demo_host_with Demo.model no_tests)
               (Demo.task_for "make f return 4") Demo.agent_dev Demo.base Demo.start)
    as (_ & r & Hr & Hs & _ & _ & Ht).
  - vm_compute. reflexivity.
  - vm_compute. reflexivity.
  - reflexivity.
  - exists r. eexists. split; [exact Hr|]. split; [exact Hs|]. split; [exact Ht|].
    reflexivity.
Defined.

(** X13: when the model fails to answer the request for code, or answers
    with text that [GeneratedCode.parse_raw] rejects, [modify_code] raises
    that exception at once: one request was sent, no tests were asked for
    and nothing was run. *)
Theorem code_generation_failure_propagates (H : Host) (task : Task) (agent : Agent)
    (codebase : list CodeFile) (w0 : World) (e : exn) :
  llm_generate H (clock w0) (generate_prompt H task agent).1
    (generate_prompt H task agent).2 = inl e ∨
  (∃ response,
     llm_generate H (clock w0) (generate_prompt H task agent).1
       (generate_prompt H task agent).2 = inr response ∧
     parse_raw H response = inl e) →
  ∃ w',
    modify_code H task agent codebase w0 = (Raise e, w') ∧
    llm_log w' =
      llm_log w0 ++ [((generate_prompt H task agent).1, (generate_prompt H task agent).2)] ∧
    children w' = children w0 ∧
    thought_process w' = thought_process w0 ++ [opening_thought task].
Proof.
  intros Hfail. rewrite modify_code_eq.
  unfold generate_code, bind, llm_call. simpl.
  destruct Hfail as [Hllm | (response & Hllm & Hparse)]; rewrite Hllm.
  - eexists. by split_and!.
  - simpl. rewrite Hparse. eexists. by split_and!.
Qed.

Lemma code_generation_failure_propagates_witness :
  ∃ w',
    modify_code (demo_host_with garbled Demo.parse_tests) (Demo.task_for "make f return 4")
      Demo.agent_dev Demo.base Demo.start =
      (Raise (Exn ValidationError "1 validation error for GeneratedCode"), w') ∧
    length (llm_log w') = 1.
Proof.
  edestruct (code_generation_failure_propagates (demo_host_with garbled Demo.parse_tests)
               (Demo.task_for "make f return 4") Demo.agent_dev Demo.base Demo.start)
    as (w' & Hrun & Hlog & _).
  - right. exists "???". split; vm_compute; reflexivity.
  - exists w'. split; [exact Hrun|]. rewrite Hlog. reflexivity.
Defined.

Lemma modify_code_based_on_test_log (H : Host) (code : GeneratedCode) (t : TestResult)
    (task : Task) (w w' : World) (o : outcome GeneratedCode) :
  modify_code_based_on_test H code (tr_test_code t) (tr_message t) task w = (o, w') →
  w' = set_llm_log (llm_log w ++ [repair_request H task code t]) (tick w) ∧
  ∀ revised, o = Ret revised → ∃ response, parse_raw H response = inr revised.
Proof.
  unfold modify_code_based_on_test, bind, llm_call, repair_request.
  destruct (llm_generate _ _ _ _) as [e|response]; simpl.
  - intros [= <- <-]. by split.
  - destruct (parse_raw H response) as [e|revised] eqn:Hp; simpl;
      intros [= <- <-]; (split; [done|]); [done|].
    intros ? [= <-]. by exists response.
Qed.

(** X14: when a repair request fails in the middle of a round (the model
    gives no answer, or one that does not parse), the round raises that
    exception and so does the loop: the revisions obtained earlier in the
    round are dropped, and the failing tests that come after get no
    request. *)
Theorem repair_failure_propagates (H : Host) (task : Task) (codebase : list CodeFile)
    (l : Locals) (w wt w1 w2 : World) (u1 u2 s : list TestResult) (t : TestResult)
    (c1 : GeneratedCode) (e : exn) :
  run_tests H (modified_code l) codebase w = (Ret (u1 ++ t :: u2, s), wt) →
  repair_all H task (modified_code l) u1
    (set_thought_process
       (thought_process wt ++ [iteration_thought l (u1 ++ t :: u2)]) wt) = (Ret c1, w1) →
  modify_code_based_on_test H c1 (tr_test_code t) (tr_message t) task w1 = (Raise e, w2) →
  loop_body H task codebase l w = (Raise e, w2) ∧
  llm_log w2 = llm_log w1 ++ [repair_request H task c1 t] ∧
  (∀ fuel max, iteration_count l < max →
               while_loop H (S fuel) max task codebase l w = (Raise e, w2)).
Proof.
  intros Htests Hrep Hfail.
  assert (Hbody : loop_body H task codebase l w = (Raise e, w2)).
  { unfold loop_body. rewrite (bind_Ret _ _ _ _ _ Htests).
    assert (Hall : repair_all H task (modified_code l) (u1 ++ t :: u2)
                     (set_thought_process
                        (thought_process wt ++ [iteration_thought l (u1 ++ t :: u2)]) wt) =
                   (Raise e, w2)).
    { unfold repair_all in *. rewrite for_fold_app, (bind_Ret _ _ _ _ _ Hrep).
      simpl. by apply bind_Raise. }
    destruct (u1 ++ t :: u2) as [|x xs] eqn:Hu; [by destruct u1|].
    unfold bind at 1, reflect, modify_world. by apply bind_Raise. }
  split_and!; [done | |].
  - apply modify_code_based_on_test_log in Hfail as [-> _]. done.
  - intros fuel max Hlt. simpl. apply Nat.ltb_lt in Hlt. rewrite Hlt.
    by apply bind_Raise.
Qed.

Lemma repair_failure_propagates_witness :
  ∃ w2,
    loop_body (demo_host_with garbled_repair Demo.parse_tests)
      (Demo.task_for "make f return 4") Demo.base
      {| modified_code := Demo.code_v1; iteration_count := 0;
         unsuccessful_tests := None; successful_tests := None |} Demo.start =
      (Raise (Exn ValidationError "1 validation error for GeneratedCode"), w2).
Proof.
  eexists.
  eapply (repair_failure_propagates (demo_host_with garbled_repair Demo.parse_tests)
            (Demo.task_for "make f return 4") Demo.base
            {| modified_code := Demo.code_v1; iteration_count := 0;
               unsuccessful_tests := None; successful_tests := None |} Demo.start _ _ _
            [make_test_result Demo.test_eq
               {| success := false; output := "AssertionError"; mocked_modules_used := [] |}]
            []
            [make_test_result Demo.test_print
               {| success := true; output := "4"; mocked_modules_used := [] |}]
            (make_test_result Demo.test_gt
               {| success := false; output := "AssertionError"; mocked_modules_used := [] |})).
  - vm_compute. reflexivity.
  - vm_compute. reflexivity.
  - vm_compute. reflexivity.
Defined.

(** ** What [modify_code] reports *)

Lemma loop_body_Continue_inv (H : Host) (task : Task) (codebase : list CodeFile)
    (l l' : Locals) (w w' : World) :
  loop_body H task codebase l w = (Ret (Continue, l'), w') →
  ∃ u s wt revised,
    run_tests H (modified_code l) codebase w = (Ret (u, s), wt) ∧ u ≠ [] ∧
    repair_all H task (modified_code l) u
      (set_thought_process (thought_process wt ++ [iteration_thought l u]) wt) =
      (Ret revised, w') ∧
    l' = {| modified_code := revised; iteration_count := iteration_count l + 1;
            unsuccessful_tests := Some u; successful_tests := Some s |}.
Proof.
  unfold loop_body, bind. intros Hbody.
  destruct (run_tests H (modified_code l) codebase w) as [[[u s]|e] wt]; [|done].
  destruct u as [|t u]; [done|]. simpl in Hbody.
  fold (iteration_thought l (t :: u)) in Hbody.
  destruct (repair_all H task (modified_code l) (t :: u) _) as [[revised|e] w2] eqn:Hrep;
    [|done].
  injection Hbody as <- <-. by exists (t :: u), s, wt, revised.
Qed.

Lemma loop_body_Break_inv (H : Host) (task : Task) (codebase : list CodeFile)
    (l l' : Locals) (w w' : World) :
  loop_body H task codebase l w = (Ret (Break, l'), w') →
  ∃ s wt,
    run_tests H (modified_code l) codebase w = (Ret ([], s), wt) ∧
    w' = set_thought_process (thought_process wt ++ ["All tests passed successfully."]) wt ∧
    l' = {| modified_code := modified_code l; iteration_count := iteration_count l;
            unsuccessful_tests := Some []; successful_tests := Some s |}.
Proof.
  unfold loop_body, bind. intros Hbody.
  destruct (run_tests H (modified_code l) codebase w) as [[[u s]|e] wt]; [|done].
  destruct u as [|t u].
  - simpl in Hbody. injection Hbody as <- <-. by exists s, wt.
  - simpl in Hbody. by destruct (repair_all H task (modified_code l) (t :: u) _) as [[?|?] ?].
Qed.


Lemma rounds_last (H : Host) (task : Task) (codebase : list CodeFile) (max : nat) :
  ∀ n l w l2 w2,
    rounds H task codebase max (S n) l w l2 w2 →
    ∃ l1 w1,
      rounds H task codebase max n l w l1 w1 ∧ iteration_count l1 < max ∧
      loop_body H task codebase l1 w1 = (Ret (Continue, l2), w2).
Proof.
  induction n as [|n IH]; intros l w l2 w2 Hr.
  - inversion Hr as [|? ? ? la wa ? ? Hlt Hbody Hrest]; subst.
    inversion Hrest; subst. exists l, w. split_and!; [constructor | done | done].
  - inversion Hr as [|? ? ? la wa ? ? Hlt Hbody Hrest]; subst.
    apply IH in Hrest as (l1 & w1 & Hr1 & Hlt1 & Hb1).
    exists l1, w1. split_and!; [by eapply rounds_S | done | done].
Qed.

(** The two ways in which [modify_code] returns a result: some pass found
    no failing test, or three repair rounds were made. *)
Lemma modify_code_returns_inv (H : Host) (task : Task) (agent : Agent)
    (codebase : list CodeFile) (w0 w' : World) (r : TaskResult) :
  modify_code H task agent codebase w0 = (Ret (Some r), w') →
  ∃ generated w2 n l1 w1,
    generate_code H task agent
      (set_thought_process (thought_process w0 ++ [opening_thought task]) w0) =
      (Ret generated, w2) ∧
    rounds H task codebase 3 n
      {| modified_code := generated; iteration_count := 0;
         unsuccessful_tests := None; successful_tests := None |} w2 l1 w1 ∧
    iteration_count l1 = n ∧
    ((∃ s wt,
        n < 3 ∧
        run_tests H (modified_code l1) codebase w1 = (Ret ([], s), wt) ∧
        w' = set_thought_process
               (thought_process wt ++ ["All tests passed successfully."]) wt ∧
        r = {| task_id := t_id task; task_success := true;
               task_output := "Code modification complete";
               modified_files := files_of_changes (modified_code l1);
               new_files := ∅; test_results := Some (s ++ []) |}) ∨
     (∃ u s,
        n = 3 ∧ unsuccessful_tests l1 = Some u ∧ successful_tests l1 = Some s ∧ u ≠ [] ∧
        w' = set_thought_process
               (thought_process w1 ++
                  ["Maximum iterations reached. Some tests are still failing."]) w1 ∧
        r = {| task_id := t_id task; task_success := false;
               task_output := "Some tests are still failing";
               modified_files := files_of_changes (modified_code l1);
               new_files := ∅; test_results := Some (s ++ u) |})).
Proof.
  rewrite modify_code_eq. intros Hrun.
  destruct (generate_code H task agent _) as [[generated|e] w2] eqn:Hgen; [|done].
  set (l0 := {| modified_code := generated; iteration_count := 0;
                unsuccessful_tests := None; successful_tests := None |}) in *.
  destruct (while_loop_cases H task codebase 3 3 l0 w2) as
    (n & l1 & w1 & o & w3 & Hr & Hend & Hw); [simpl; lia|].
  rewrite Hw in Hrun.
  pose proof (rounds_count _ _ _ _ _ _ _ _ _ Hr) as [Hn Hle]. simpl in Hn, Hle.
  exists generated, w2, n, l1, w1. split_and!; [done | done | done |].
  inversion Hend as [Hge | l2 w2' Hlt Hbody | e w2' Hlt Hbody]; subst o w3.
  - right. assert (n = 3) as -> by lia.
    apply rounds_last in Hr as (lp & wp & _ & _ & Hlast).
    apply loop_body_cases in Hlast as (u & s & Hu & Hs & Hne & _).
    exists u, s. unfold finish, bind, reflect, modify_world in Hrun.
    rewrite Hn, Hu, Hs in Hrun. simpl in Hrun.
    destruct u as [|t u]; [done|]. injection Hrun as <- <-. by split_and!.
  - left. apply loop_body_Break_inv in Hbody as (s & wt & Htests & -> & ->).
    exists s, wt. unfold finish, bind in Hrun. simpl in Hrun.
    rewrite (proj2 (Nat.eqb_neq _ _)) in Hrun by lia. simpl in Hrun.
    injection Hrun as <- <-. split_and!; [lia | done..].
  - done.
Qed.



(** X16: a result of [modify_code] is coherent.  Its test results are the
    passing outcomes followed by the failing ones of one and the same
    pass; [success] holds iff there is no failing outcome, iff the output
    is [Code modification complete], iff the last thought logged is
    [All tests passed successfully.]; otherwise the output and the last
    thought say that tests still fail and the cap was reached.  It never
    reports a new file: a file a change creates is listed under
    [modified_files]. *)
Theorem modify_code_result_coherent (H : Host) (task : Task) (agent : Agent)
    (codebase : list CodeFile) (w0 w' : World) (r : TaskResult) :
  modify_code H task agent codebase w0 = (Ret (Some r), w') →
  (∃ s u,
     test_results r = Some (s ++ u) ∧
     Forall (λ o, tr_success o = true) s ∧ Forall (λ o, tr_success o = false) u ∧
     (task_success r = true ↔ u = [])) ∧
  (task_success r = true ↔ task_output r = "Code modification complete") ∧
  (task_success r = true ↔
     last (thought_process w') = Some "All tests passed successfully.") ∧
  (task_success r = false ↔ task_output r = "Some tests are still failing") ∧
  (task_success r = false ↔
     last (thought_process w') =
       Some "Maximum iterations reached. Some tests are still failing.") ∧
  new_files r = ∅ ∧
  task_id r = t_id task.
Proof.
  intros Hrun.
  apply modify_code_returns_inv in Hrun
    as (generated & w2 & n & l1 & w1 & _ & Hr & Hn &
        [(s & wt & _ & Htests & -> & ->) | (u & s & -> & Hu & Hs & Hne & -> & ->)]).
  - apply run_tests_returns_inv in Htests as (resp & wa & rs & _ & _ & Hf & ->).
    simpl. rewrite last_snoc. split_and!; try done.
    exists (passing (outcomes (tests resp) rs)), []. split_and!; [done | | done | done].
    apply Forall_forall. by intros o [? _]%list_elem_of_filter.
  - apply rounds_last in Hr as (lp & wp & _ & _ & Hlast).
    apply loop_body_Continue_inv in Hlast as (u' & s' & wt & revised & Htests & _ & _ & ->).
    simpl in Hu, Hs. injection Hu as <-. injection Hs as <-.
    apply run_tests_returns_inv in Htests as (resp & wa & rs & _ & _ & -> & ->).
    simpl. rewrite last_snoc. split_and!; try done.
    exists (passing (outcomes (tests resp) rs)), (failing (outcomes (tests resp) rs)).
    split_and!; [done | | | done].
    + apply Forall_forall. by intros o [? _]%list_elem_of_filter.
    + apply Forall_forall. by intros o [? _]%list_elem_of_filter.
Qed.

Lemma modify_code_result_coherent_witness :
  ∃ r w',
    modify_code Demo.host (Demo.task_for "make f return 4") Demo.agent_dev Demo.base
      Demo.start = (Ret (Some r), w') ∧
    new_files r = ∅ ∧
    (task_success r = true ↔ task_output r = "Code modification complete").
Proof.
  destruct (modify_code Demo.host (Demo.task_for "make f return 4") Demo.agent_dev
              Demo.base Demo.start) as [o w'] eqn:E.
  vm_compute in E. injection E as <- <-.
  edestruct (modify_code_result_coherent Demo.host (Demo.task_for "make f return 4")
               Demo.agent_dev Demo.base Demo.start)
    as (_ & Hout & _ & _ & _ & Hnew & _).
  - vm_compute. reflexivity.
  - eexists _, _. split; [reflexivity|]. split; [exact Hnew | exact Hout].
Defined.

(** ** Collecting the files of a project *)

Lemma filter_none {A} (P : A → Prop) `{!∀ x, Decision (P x)} (l : list A) :
  (∀ x, x ∈ l → ¬ P x) → filter P l = [].
Proof.
  induction l as [|x l IH]; intros Hno; [done|].
  rewrite filter_cons_False by (apply Hno; by left).
  apply IH. intros y Hy. apply Hno. by right.
Qed.

Lemma foldl_update_last {A} (get : A → gmap string string) (l : list A)
    (m0 : gmap string string) (k : string) :
  foldl (λ acc x, get x ∪ acc) m0 l !! k =
    match last (filter (λ x, is_Some (get x !! k)) l) with
    | Some x => get x !! k
    | None => m0 !! k
    end.
Proof.
  induction l as [|x l IH] using rev_ind; [done|].
  rewrite foldl_app, filter_app. simpl. rewrite filter_cons, filter_nil, lookup_union.
  case_decide as Hk.
  - rewrite last_snoc. destruct Hk as [v Hv]. rewrite Hv. by destruct (foldl _ _ _ !! k).
  - rewrite app_nil_r. apply eq_None_not_Some in Hk. rewrite Hk, left_id by apply _.
    apply IH.
Qed.

Lemma foldl_nested {A B C} (f : C → B → C) (sub : A → list B) (l : list A) (c : C) :
  foldl (λ acc a, foldl f acc (sub a)) c l = foldl f c (l ≫= sub).
Proof.
  revert c. induction l as [|a l IH]; intros c; [done|].
  simpl. by rewrite IH, foldl_app.
Qed.

(** X17: [get_modified_files] and [get_new_files] merge the maps of all
    task results, agent by agent and task by task; where several task
    results hold the same path, the content of the last of them wins, and
    a path no task result holds is absent. *)
Theorem get_files_last_wins (agent_results : list AgentResult) (path : string) :
  let all := agent_results ≫= task_results in
  get_modified_files agent_results !! path =
    (last (filter (λ r, is_Some (modified_files r !! path)) all)
       ≫= λ r, modified_files r !! path) ∧
  get_new_files agent_results !! path =
    (last (filter (λ r, is_Some (new_files r !! path)) all) ≫= λ r, new_files r !! path) ∧
  (get_modified_files agent_results !! path = None ↔
     ∀ r, r ∈ all → modified_files r !! path = None).
Proof.
  cbv zeta. unfold get_modified_files, get_new_files.
  rewrite (foldl_nested (λ acc r, modified_files r ∪ acc) task_results).
  rewrite (foldl_nested (λ acc r, new_files r ∪ acc) task_results).
  rewrite (foldl_update_last modified_files), (foldl_update_last new_files).
  rewrite !lookup_empty. split_and!.
  - by destruct (last _).
  - by destruct (last _).
  - destruct (last (filter _ _)) as [r|] eqn:Hl.
    + apply last_Some_elem_of in Hl. apply list_elem_of_filter in Hl as [[v Hv] Hin].
      rewrite Hv. split; [done|]. intros Hall. rewrite (Hall r Hin) in Hv. done.
    + split; [|done]. intros _ r Hin. apply last_None in Hl.
      destruct (modified_files r !! path) as [v|] eqn:Hv; [|done].
      assert (r ∈ filter (λ r, is_Some (modified_files r !! path))
                    (agent_results ≫= task_results)) as Hf
        by (apply list_elem_of_filter; eauto).
      rewrite Hl in Hf. by apply elem_of_nil in Hf.
Qed.

(** X18: the [unchanged_files] of a project result and its
    [modified_files] share no path, and between them they cover the code
    base: a path of the code base that was not modified is listed as
    unchanged with the content the code base has for it. *)
Theorem unchanged_files_partition (code_base : list CodeFile)
    (modified : gmap string string) :
  unchanged_files code_base modified ##ₘ modified ∧
  dom (unchanged_files code_base modified) =
    list_to_set (cf_path <$> code_base) ∖ dom modified ∧
  (∀ path, path ∉ dom modified →
           unchanged_files code_base modified !! path = base_dict code_base !! path).
Proof.
  assert (Hlook : ∀ path,
            unchanged_files code_base modified !! path =
              if decide (path ∈ dom modified) then None
              else base_dict code_base !! path).
  { intros path. unfold unchanged_files, base_dict.
    rewrite !(foldl_insert_last cf_path cf_content), !lookup_empty.
    rewrite list_filter_filter. case_decide as Hin.
    - rewrite filter_none; [done|]. intros f _ [-> Hout]. done.
    - rewrite (list_filter_iff (λ a, cf_path a = path ∧ cf_path a ∉ dom modified)
                 (λ x, cf_path x = path)); [done|].
      intros f. split; [by intros [? _]|]. intros <-. done. }
  assert (Hbase : ∀ path, is_Some (base_dict code_base !! path) ↔
                          path ∈ cf_path <$> code_base).
  { intros path. unfold base_dict.
    rewrite (foldl_insert_last cf_path cf_content), lookup_empty. split.
    - destruct (last (filter _ code_base)) as [f|] eqn:Hl; [|by intros [? ?]].
      intros _. apply last_Some_elem_of, list_elem_of_filter in Hl as [<- Hin].
      by apply list_elem_of_fmap_2.
    - intros (f & -> & Hin)%list_elem_of_fmap.
      destruct (last (filter (λ x, cf_path x = cf_path f) code_base)) as [g|] eqn:Hl; [done|].
      apply last_None in Hl.
      assert (f ∈ filter (λ x, cf_path x = cf_path f) code_base) as Hf
        by (by apply list_elem_of_filter).
      rewrite Hl in Hf. by apply elem_of_nil in Hf. }
  split_and!.
  - apply map_disjoint_spec. intros path x y Hx Hy. rewrite Hlook in Hx.
    rewrite decide_True in Hx; [done|]. apply elem_of_dom. by exists y.
  - apply set_eq. intros path.
    rewrite elem_of_dom, Hlook, elem_of_difference, elem_of_list_to_set, <- Hbase.
    case_decide; split; try tauto. by intros [? ?].
  - intros path Hout. rewrite Hlook. by rewrite decide_False.
Qed.

(** ** The planner's view of the code base *)

(** X19: [_extract_code] returns the content of the first file of the
    code base with the given path, and [None] exactly when no file has
    that path. *)
Theorem extract_code_first (codebase : list CodeFile) (path : string) :
  (extract_code codebase path = None ↔ path ∉ cf_path <$> codebase) ∧
  (∀ content,
     extract_code codebase path = Some content ↔
       ∃ before file after,
         codebase = before ++ file :: after ∧
         cf_path file = path ∧ cf_content file = content ∧
         (path ∉ cf_path <$> before)).
Proof.
  induction codebase as [|f codebase [IHn IHs]]; simpl.
  - split; [split; [intros _; apply not_elem_of_nil | done]|].
    intros content. split; [done|]. intros (before & file & after & Heq & _).
    by destruct before.
  - destruct (String.eqb_spec (cf_path f) path) as [Heq|Hne].
    + split.
      * split; [done|]. intros Hout. exfalso. apply Hout. rewrite <- Heq. by left.
      * intros content. split.
        -- intros [= <-]. exists [], f, codebase. split_and!; try done. apply not_elem_of_nil.
        -- intros (before & file & after & Hc & Hp & Hcont & Hout).
           destruct before as [|g before]; simpl in Hc.
           ++ injection Hc as <- <-. by rewrite Hcont.
           ++ injection Hc as <- ->. exfalso. apply Hout. simpl. rewrite Heq. by left.
    + split.
      * rewrite IHn. rewrite not_elem_of_cons. intuition congruence.
      * intros content. rewrite IHs. split.
        -- intros (before & file & after & -> & Hp & Hcont & Hout).
           exists (f :: before), file, after. split_and!; try done.
           simpl. rewrite not_elem_of_cons. split; [congruence | done].
        -- intros (before & file & after & Hc & Hp & Hcont & Hout).
           destruct before as [|g before]; simpl in Hc.
           ++ injection Hc as <- <-. done.
           ++ injection Hc as <- ->. exists before, file, after.
              split_and!; try done. simpl in Hout. rewrite not_elem_of_cons in Hout. tauto.
Qed.

(** X20: when no two files of the code base share a path, the planner and
    the tester read the same code base: [_extract_code] returns for a path
    what the dict built by [run_tests] holds for it.  (With a path that
    occurs twice the planner sees the first file and the tests the
    last.) *)
Theorem extract_code_agrees_with_dict (codebase : list CodeFile) (path : string) :
  NoDup (cf_path <$> codebase) →
  extract_code codebase path = base_dict codebase !! path.
Proof.
  unfold base_dict. rewrite (foldl_insert_last cf_path cf_content), lookup_empty.
  induction codebase as [|f codebase IH]; intros Hnd; [done|].
  simpl in *. apply NoDup_cons in Hnd as [Hf Hnd]. rewrite filter_cons.
  destruct (String.eqb_spec (cf_path f) path) as [Heq|Hne].
  - rewrite decide_True by done.
    rewrite filter_none; [done|]. intros g Hg Hp. apply Hf. rewrite Heq, <- Hp.
    by apply list_elem_of_fmap_2.
  - rewrite decide_False by done. by apply IH.
Qed.

Lemma extract_code_agrees_with_dict_witness :
  extract_code Demo.base "f.py" = Some "def f(): return 0" ∧
  base_dict Demo.base !! "f.py" = Some "def f(): return 0".
Proof.
  split; [reflexivity|].
  rewrite <- (extract_code_agrees_with_dict Demo.base "f.py"); [reflexivity|].
  vm_compute. apply NoDup_cons. split; [|apply NoDup_singleton].
  rewrite list_elem_of_singleton. discriminate.
Defined.

(** X21: the dict stored in [task.relevant_code] has exactly the listed
    file paths as keys, and it maps each of them to what [_extract_code]
    finds: a listed path that is not in the code base (a file to be
    created) is kept, with the value [None]. *)
Theorem relevant_code_of_spec (codebase : list CodeFile) (file_paths : list string) :
  dom (relevant_code_of codebase file_paths) = list_to_set file_paths ∧
  (∀ path, path ∈ file_paths →
           relevant_code_of codebase file_paths !! path =
             Some (extract_code codebase path)) ∧
  (∀ path, path ∉ file_paths → relevant_code_of codebase file_paths !! path = None).
Proof.
  assert (Hlook : ∀ path,
            relevant_code_of codebase file_paths !! path =
              if decide (path ∈ file_paths) then Some (extract_code codebase path)
              else None).
  { intros path. unfold relevant_code_of.
    rewrite (foldl_insert_last (λ p, p) (extract_code codebase)), lookup_empty.
    destruct (last (filter _ file_paths)) as [p|] eqn:Hl.
    - apply last_Some_elem_of, list_elem_of_filter in Hl as [-> Hin].
      by rewrite decide_True.
    - apply last_None in Hl. rewrite decide_False; [done|]. intros Hin.
      assert (path ∈ filter (λ p, p = path) file_paths) as Hf
        by (by apply list_elem_of_filter).
      rewrite Hl in Hf. by apply elem_of_nil in Hf. }
  split_and!.
  - apply set_eq. intros path. rewrite elem_of_dom, Hlook, elem_of_list_to_set.
    case_decide; split; try done; try by intros [? ?].
  - intros path Hin. by rewrite Hlook, decide_True.
  - intros path Hout. by rewrite Hlook, decide_False.
Qed.

(** ** Invariants of the whole pipeline *)

Lemma bind_inv {A B} (Inv : World → Prop) (m : M A) (k : A → M B) (w : World) :
  Inv (m w).2 → (∀ a w1, Inv w1 → Inv (k a w1).2) → Inv (bind m k w).2.
Proof.
  intros Hm Hk. unfold bind. destruct (m w) as [[a|e] w1]; simpl in *; [|done].
  by apply Hk.
Qed.

Lemma for_fold_inv {A B} (Inv : World → Prop) (body : B → A → M B) (l : list A) :
  (∀ acc x w, Inv w → Inv (body acc x w).2) →
  ∀ acc w, Inv w → Inv (for_fold l acc body w).2.
Proof.
  intros Hbody. induction l as [|x l IH]; intros acc w Hw; [done|].
  simpl. apply bind_inv; [by apply Hbody | intros; by apply IH].
Qed.

Lemma llm_call_frame (H : Host) (user_prompt system_prompt : string) (w : World) :
  sys_modules (llm_call H user_prompt system_prompt w).2 = sys_modules w ∧
  mocked_modules (llm_call H user_prompt system_prompt w).2 = mocked_modules w ∧
  thought_process (llm_call H user_prompt system_prompt w).2 = thought_process w.
Proof. unfold llm_call. by destruct (llm_generate _ _ _ _). Qed.

Lemma run_no_stand_in (H : Host) (code : string) (codebase : gmap string string)
    (w : World) :
  no_stand_in_installed w → no_stand_in_installed (run H code codebase w).2.
Proof.
  intros Hinv. pose proof (run_cases H code codebase w) as Hc.
  destruct (mkdtemp H (clock w)) as [e|d]; [by rewrite Hc|].
  cbv zeta in Hc. destruct Hc as [Hfs Hc].
  set (w1 := (prepare H code codebase d (entered d w)).2) in *.
  destruct Hfs as (Hsm & Hmm & _).
  assert (Hearly : ∀ e, run H code codebase w = (Raise e, remove_tree H d w1) →
            no_stand_in_installed (run H code codebase w).2).
  { intros e ->. unfold no_stand_in_installed, mocked_names in *. simpl.
    rewrite Hsm, Hmm. done. }
  destruct (prepare H code codebase d (entered d w)).1 as [[]|e]; [|by apply (Hearly e)].
  destruct (ast_parse_walk H code) as [e|nodes]; [by apply (Hearly e)|].
  destruct Hc as (added & r & Hr & _). rewrite Hr.
  unfold no_stand_in_installed, mocked_names. simpl. intros name Hin.
  rewrite lookup_foldl_delete. by rewrite decide_True.
Qed.

Lemma frame_no_stand_in (w w' : World) :
  sys_modules w' = sys_modules w → mocked_modules w' = mocked_modules w →
  no_stand_in_installed w → no_stand_in_installed w'.
Proof. unfold no_stand_in_installed, mocked_names. by intros -> ->. Qed.

Lemma parse_step_no_stand_in {A} (H : Host) (user_prompt system_prompt : string)
    (k : string → M A) (w : World) :
  (∀ response w1, k response w1 = (Raise (Exn RuntimeError ""), w1) ∨
                  ∃ o, k response w1 = (o, w1)) →
  no_stand_in_installed w →
  no_stand_in_installed (bind (llm_call H user_prompt system_prompt) k w).2.
Proof.
  intros Hk Hinv. apply bind_inv.
  - destruct (llm_call_frame H user_prompt system_prompt w) as (Hs & Hm & _).
    by apply (frame_no_stand_in w).
  - intros response w1 Hw1. by destruct (Hk response w1) as [-> | [o ->]].
Qed.

Lemma generate_test_code_no_stand_in (H : Host) (mc : GeneratedCode) (w : World) :
  no_stand_in_installed w → no_stand_in_installed (generate_test_code H mc w).2.
Proof.
  intros Hinv. unfold generate_test_code. apply parse_step_no_stand_in; [|done].
  intros response w1. right. destruct (parse_test_response H response); by eexists.
Qed.

Lemma repair_no_stand_in (H : Host) (task : Task) (code : GeneratedCode)
    (test test_result : string) (w : World) :
  no_stand_in_installed w →
  no_stand_in_installed (modify_code_based_on_test H code test test_result task w).2.
Proof.
  intros Hinv. unfold modify_code_based_on_test. apply parse_step_no_stand_in; [|done].
  intros response w1. right. unfold of_sum. destruct (parse_raw H response); by eexists.
Qed.

Lemma run_tests_no_stand_in (H : Host) (mc : GeneratedCode) (codebase : list CodeFile)
    (w : World) :
  no_stand_in_installed w → no_stand_in_installed (run_tests H mc codebase w).2.
Proof.
  intros Hinv. unfold run_tests. apply bind_inv; [by apply generate_test_code_no_stand_in|].
  intros resp w1 Hw1. apply for_fold_inv; [|done].
  intros acc t w2 Hw2. unfold run_one_test. apply bind_inv; [by apply run_no_stand_in|].
  intros r w3 Hw3. by destruct (negb (success r)).
Qed.

Lemma loop_body_no_stand_in (H : Host) (task : Task) (codebase : list CodeFile)
    (l : Locals) (w : World) :
  no_stand_in_installed w → no_stand_in_installed (loop_body H task codebase l w).2.
Proof.
  intros Hinv. unfold loop_body. apply bind_inv; [by apply run_tests_no_stand_in|].
  intros [u s] w1 Hw1. destruct u as [|t u]; [done|].
  apply bind_inv; [done|]. intros _ w2 Hw2.
  apply bind_inv; [|done]. unfold repair_all. apply for_fold_inv; [|done].
  intros code t' w3 Hw3. by apply repair_no_stand_in.
Qed.

Lemma while_loop_no_stand_in (H : Host) (task : Task) (codebase : list CodeFile)
    (max : nat) :
  ∀ fuel l w, no_stand_in_installed w →
              no_stand_in_installed (while_loop H fuel max task codebase l w).2.
Proof.
  induction fuel as [|fuel IH]; intros l w Hinv; simpl.
  - by destruct (iteration_count l <? max).
  - destruct (iteration_count l <? max); [|done].
    apply bind_inv; [by apply loop_body_no_stand_in|].
    intros [c l'] w1 Hw1. destruct c; [by apply IH | done].
Qed.

(** X22: no stand-in is ever left installed by the pipeline.  If before a
    call of [run], [run_tests] or [modify_code] no name of the executor's
    cache is in [sys.modules], then none is afterwards, whether the call
    returns or raises. *)
Theorem pipeline_leaves_no_stand_in (H : Host) (task : Task) (agent : Agent)
    (codebase : list CodeFile) (w : World) :
  no_stand_in_installed w →
  no_stand_in_installed (modify_code H task agent codebase w).2 ∧
  (∀ mc, no_stand_in_installed (run_tests H mc codebase w).2) ∧
  (∀ code files, no_stand_in_installed (run H code files w).2).
Proof.
  intros Hinv. split_and!.
  - unfold modify_code, modify_code_with. apply bind_inv; [done|].
    intros _ w1 Hw1. apply bind_inv.
    { unfold generate_code. apply parse_step_no_stand_in; [|done].
      intros response w2. right. unfold of_sum. destruct (parse_raw H response); by eexists. }
    intros generated w2 Hw2. apply bind_inv; [by apply while_loop_no_stand_in|].
    intros [l|] w3 Hw3; [|done]. apply bind_inv; [|done].
    unfold finish. apply bind_inv.
    + by destruct (iteration_count l =? 3).
    + intros _ w4 Hw4. by destruct (unsuccessful_tests l), (successful_tests l).
  - intros mc. by apply run_tests_no_stand_in.
  - intros code files. by apply run_no_stand_in.
Qed.

Lemma pipeline_leaves_no_stand_in_witness :
  mocked_names
    (run (demo_host_with Demo.model importing_tests) Demo.snippet_fake ∅ Demo.start).2 =
    ["numpy_like_fake_pkg"] ∧
  mocked_names
    (modify_code (demo_host_with Demo.model importing_tests)
       (Demo.task_for "make f return 4") Demo.agent_dev Demo.base
       (run (demo_host_with Demo.model importing_tests) Demo.snippet_fake ∅
          Demo.start).2).2 =
    ["numpy_like_fake_pkg"; "fake_a"] ∧
  no_stand_in_installed
    (modify_code (demo_host_with Demo.model importing_tests)
       (Demo.task_for "make f return 4") Demo.agent_dev Demo.base
       (run (demo_host_with Demo.model importing_tests) Demo.snippet_fake ∅
          Demo.start).2).2.
Proof.
  split; [vm_compute; reflexivity|]. split; [vm_compute; reflexivity|].
  refine (proj1 (pipeline_leaves_no_stand_in (demo_host_with Demo.model importing_tests)
                   (Demo.task_for "make f return 4") Demo.agent_dev Demo.base
                   (run (demo_host_with Demo.model importing_tests) Demo.snippet_fake ∅
                      Demo.start).2 _)).
  intros name Hin. vm_compute in Hin.
  inversion Hin as [|? ? ? Hin']; subst; [vm_compute; reflexivity | inversion Hin'].
Defined.

(** ** A second run *)

(** What a call of [run] adds to the cache, on every path. *)
Lemma run_registered (H : Host) (code : string) (codebase : gmap string string)
    (w : World) :
  ∃ added,
    mocked_modules (run H code codebase w).2 = mocked_modules w ++ added ∧
    next_id (run H code codebase w).2 = next_id w + 3 * length added ∧
    (∀ name, name ∈ added.*1 →
       ∃ nodes, ast_parse_walk H code = inr nodes ∧
                name ∈ flat_map imports_of_node nodes ∧
                is_external_module H name codebase = true ∧
                name ∉ mocked_names w) ∧
    (∀ r, (run H code codebase w).1 = Ret r →
       mocked_modules_used r = mocked_names w ++ added.*1 ∧
       ∀ nodes name,
         ast_parse_walk H code = inr nodes →
         name ∈ flat_map imports_of_node nodes →
         is_external_module H name codebase = true →
         name ∈ mocked_names w ++ added.*1).
Proof.
  pose proof (run_cases H code codebase w) as Hc.
  destruct (mkdtemp H (clock w)) as [e|d].
  { exists []. rewrite Hc. simpl. rewrite app_nil_r.
    split_and!; [done | lia | by intros ? ?%elem_of_nil | done]. }
  cbv zeta in Hc. destruct Hc as [Hfs Hc].
  set (w1 := (prepare H code codebase d (entered d w)).2) in *.
  destruct Hfs as (_ & Hmm & Hid & _).
  assert (Hearly : ∀ e, run H code codebase w = (Raise e, remove_tree H d w1) →
    ∃ added,
      mocked_modules (run H code codebase w).2 = mocked_modules w ++ added ∧
      next_id (run H code codebase w).2 = next_id w + 3 * length added ∧
      (∀ name, name ∈ added.*1 →
         ∃ nodes, ast_parse_walk H code = inr nodes ∧
                  name ∈ flat_map imports_of_node nodes ∧
                  is_external_module H name codebase = true ∧
                  name ∉ mocked_names w) ∧
      (∀ r, (run H code codebase w).1 = Ret r →
         mocked_modules_used r = mocked_names w ++ added.*1 ∧
         ∀ nodes name,
           ast_parse_walk H code = inr nodes →
           name ∈ flat_map imports_of_node nodes →
           is_external_module H name codebase = true →
           name ∈ mocked_names w ++ added.*1)).
  { intros e ->. exists []. simpl. rewrite Hmm, Hid, app_nil_r.
    split_and!; [done | lia | by intros ? ?%elem_of_nil | done]. }
  destruct (prepare H code codebase d (entered d w)).1 as [[]|e]; [|by apply (Hearly e)].
  destruct (ast_parse_walk H code) as [e|nodes]; [by apply (Hearly e)|].
  destruct Hc as (added & r & Hr & _ & Hused & _ & Hiff & _). rewrite Hr.
  exists added. simpl. rewrite Hmm, Hid. split_and!; [done | done | |].
  - intros name Hin. exists nodes. split; [done|]. by apply Hiff.
  - intros r' [= <-]. split; [done|]. intros nodes' name [= <-] Himp Hext.
    destruct (decide (name ∈ mocked_names w)) as [Hold|Hnew].
    + apply elem_of_app. by left.
    + apply elem_of_app. right. by apply Hiff.
Qed.

(** X23: once a snippet has been run, running a snippet that imports
    nothing new (the same snippet, say) against the same code base
    registers no stand-in and consumes no object identity, whether the
    second call returns or raises; if it returns, it reports the same
    list of mocked modules as the first call did. *)
Theorem second_run_registers_nothing (H : Host) (code code2 : string)
    (codebase : gmap string string) (nodes nodes2 : list ast_node)
    (w w1 : World) (r : ExecutionResult) :
  ast_parse_walk H code = inr nodes →
  ast_parse_walk H code2 = inr nodes2 →
  flat_map imports_of_node nodes2 ⊆ flat_map imports_of_node nodes →
  run H code codebase w = (Ret r, w1) →
  mocked_modules (run H code2 codebase w1).2 = mocked_modules w1 ∧
  next_id (run H code2 codebase w1).2 = next_id w1 ∧
  registered_during w1 (run H code2 codebase w1).2 = [] ∧
  (∀ r2, (run H code2 codebase w1).1 = Ret r2 →
     mocked_modules_used r2 = mocked_modules_used r).
Proof.
  intros Hp Hp2 Hsub Hrun.
  destruct (run_registered H code codebase w) as (added & Hmm & _ & _ & Hret).
  rewrite Hrun in Hmm, Hret. simpl in Hmm, Hret.
  destruct (Hret r eq_refl) as [Hused Hall].
  assert (Hnames : mocked_names w1 = mocked_names w ++ added.*1).
  { unfold mocked_names. by rewrite Hmm, fmap_app. }
  destruct (run_registered H code2 codebase w1) as (added2 & Hmm2 & Hid2 & Hnew & Hret2).
  assert (added2 = []) as ->.
  { destruct added2 as [|[name m] added2]; [done|]. exfalso.
    destruct (Hnew name) as (nodes' & Hp' & Himp & Hext & Hnot).
    { simpl. apply elem_of_cons. by left. }
    rewrite Hp2 in Hp'. injection Hp' as <-.
    apply Hnot. rewrite Hnames. apply (Hall nodes name Hp); [|done]. by apply Hsub. }
  rewrite app_nil_r in Hmm2. simpl in Hid2. split_and!.
  - done.
  - lia.
  - unfold registered_during, mocked_names. rewrite Hmm2.
    apply filter_none. intros name Hin Hnot. by apply Hnot.
  - intros r2 Hr2. destruct (Hret2 r2 Hr2) as [-> _]. simpl.
    by rewrite app_nil_r, Hused.
Qed.

Lemma second_run_registers_nothing_witness :
  ∃ r w1,
    run Demo.host Demo.snippet_twice ∅ Demo.start = (Ret r, w1) ∧
    mocked_names w1 = ["fake_a"] ∧
    mocked_modules (run Demo.host Demo.snippet_twice ∅ w1).2 = mocked_modules w1.
Proof.
  eexists _, _. split; [vm_compute; reflexivity|]. split; [reflexivity|].
  refine (proj1 (second_run_registers_nothing Demo.host Demo.snippet_twice
                   Demo.snippet_twice ∅ _ _ Demo.start _ _ _ _ _ _)).
  - vm_compute. reflexivity.
  - vm_compute. reflexivity.
  - intros name Hin. exact Hin.
  - vm_compute. reflexivity.
Defined.
